(** * PI-Data-Extract: the extraction functions of [PI_Data.py] and
      [PI-Data-Extraction.py] over a model of the pandas operations they call.

    Both scripts fetch series from an OSI PI historian through PIconnect and
    post-process them with pandas.  The historian, the time-zone database and
    the numeric parser of [pd.to_numeric] are external: they are inputs of the
    model.  Every [data = data.op(...)] statement of the source is a
    [pandas_op]; a block of such statements is a list of operations executed in
    source order. *)

From Stdlib Require Import ZArith List Ascii String Bool Lia Sorted.
Import ListNotations.
Local Open Scope string_scope.
Local Open Scope list_scope.
Local Open Scope Z_scope.

(** ** Python outcomes: printed lines, then an exception or a value *)

Inductive exn : Type :=
| ValueError (msg : string)
| TypeError (msg : string)
| NameError (name : string)
| IndexError (msg : string).

Definition Py (A : Type) : Type := (list string * (exn + A))%type.

Definition ret {A} (a : A) : Py A := ([], inr a).
Definition raise {A} (e : exn) : Py A := ([], inl e).
Definition print (line : string) : Py unit := ([line], inr tt).

Definition bind {A B} (m : Py A) (f : A -> Py B) : Py B :=
  match m with
  | (out, inl e) => (out, inl e)
  | (out, inr a) => let (out', r) := f a in (out ++ out', r)
  end.

Notation "x <- m ;; k" := (bind m (fun x => k))
  (at level 61, m at next level, right associativity).
Notation "m ;;; k" := (bind m (fun _ => k))
  (at level 61, right associativity).

(** The printed lines and the final result of a run. *)
Definition stdout {A} (m : Py A) : list string := fst m.
Definition result {A} (m : Py A) : exn + A := snd m.

Definition raises {A} (m : Py A) : Prop := exists e, result m = inl e.

(** ** Cells, frames *)

(** A cell holds a number, a string, or the missing-value marker. *)
Inductive cell : Type :=
| Num (z : Z)
| Str (s : string)
| NaN.

(** A frame: column labels, rows keyed by their index label, and the zone of
    the index ([None] for a timezone-naive index).  Labels of an aware index
    are instants (seconds since the epoch); labels of a naive index are
    wall-clock seconds.  A [Series] is a frame of one column whose label is the
    series' name, so [pd.DataFrame(series)] changes nothing. *)
Record DataFrame : Type := mkDF {
  columns : list string;
  rows : list (Z * list cell);
  tz : option string
}.

Definition index (df : DataFrame) : list Z := map fst (rows df).
Definition nrows (df : DataFrame) : nat := List.length (rows df).

(** Cell of row number [i] (by position) in column number [j]. *)
Definition iat (df : DataFrame) (i j : nat) : option cell :=
  match nth_error (rows df) i with
  | Some r => nth_error (snd r) j
  | None => None
  end.

Definition map_cells (f : cell -> cell) (df : DataFrame) : DataFrame :=
  {| columns := columns df;
     rows := map (fun r => (fst r, map f (snd r))) (rows df);
     tz := tz df |}.

(** ** pandas operations *)

(** [df.rename(columns = d)]: labels that are keys of [d] are replaced, the
    others are kept; a key that names no column is ignored. *)
Fixpoint lookup (d : list (string * string)) (k : string) : option string :=
  match d with
  | [] => None
  | (k', v) :: d' => if String.eqb k' k then Some v else lookup d' k
  end.

Definition rename_label (d : list (string * string)) (c : string) : string :=
  match lookup d c with
  | Some v => v
  | None => c
  end.

Definition rename (d : list (string * string)) (df : DataFrame) : DataFrame :=
  {| columns := map (rename_label d) (columns df);
     rows := rows df;
     tz := tz df |}.

(** [df.columns = names] *)
Definition set_columns (names : list string) (df : DataFrame) : Py DataFrame :=
  if Nat.eqb (List.length names) (List.length (columns df))
  then ret {| columns := names; rows := rows df; tz := tz df |}
  else raise (ValueError "Length mismatch").

(** [df.replace(d)] with string keys: a cell equal to a key becomes the
    key's value; string comparison is exact. *)
Fixpoint replace_cell (d : list (string * cell)) (c : cell) : cell :=
  match d with
  | [] => c
  | (k, v) :: d' =>
      match c with
      | Str s => if String.eqb s k then v else replace_cell d' c
      | _ => c
      end
  end.

Definition replace (d : list (string * cell)) (df : DataFrame) : DataFrame :=
  map_cells (replace_cell d) df.

(** [df.drop(labels)]: every row whose label is listed goes. *)
Definition drop (labels : list Z) (df : DataFrame) : DataFrame :=
  {| columns := columns df;
     rows := filter (fun r => negb (existsb (Z.eqb (fst r)) labels)) (rows df);
     tz := tz df |}.

(** [df.tail(1).index] *)
Definition tail1_index (df : DataFrame) : list Z :=
  match rev (rows df) with
  | [] => []
  | r :: _ => [fst r]
  end.

Section Pandas.

(** Offset from UTC, in seconds, of a zone at an instant. *)
Variable utc_offset : string -> Z -> Z.

(** The parser of [pd.to_numeric]. *)
Variable parse_numeric : string -> option Z.

(** [df.tz_convert(zone)]: only an aware index can be converted. *)
Definition tz_convert (zone : string) (df : DataFrame) : Py DataFrame :=
  match tz df with
  | None => raise (TypeError "Cannot convert tz-naive timestamps, use tz_localize to localize")
  | Some _ => ret {| columns := columns df; rows := rows df; tz := Some zone |}
  end.

(** [df.tz_localize(None)]: the zone is dropped, the wall-clock time of
    each label is kept. *)
Definition wall_clock (zone : option string) (t : Z) : Z :=
  match zone with
  | Some z => t + utc_offset z t
  | None => t
  end.

Definition tz_localize_none (df : DataFrame) : DataFrame :=
  {| columns := columns df;
     rows := map (fun r => (wall_clock (tz df) (fst r), snd r)) (rows df);
     tz := None |}.

(** [pd.to_numeric(..., errors='coerce')] on one cell. *)
Definition to_numeric (c : cell) : cell :=
  match c with
  | Num z => Num z
  | Str s => match parse_numeric s with
             | Some z => Num z
             | None => NaN
             end
  | NaN => NaN
  end.

(** One statement [data = data.op(...)]. *)
Inductive pandas_op : Type :=
| op_DataFrame
| op_tz_convert (zone : string)
| op_tz_localize_none
| op_replace (d : list (string * cell))
| op_rename (d : list (string * string))
| op_unbound (name : string)
| op_drop_tail
| op_apply_to_numeric
| op_set_columns (names : list string).

Definition exec (o : pandas_op) (df : DataFrame) : Py DataFrame :=
  match o with
  | op_DataFrame => ret df
  | op_tz_convert zone => tz_convert zone df
  | op_tz_localize_none => ret (tz_localize_none df)
  | op_replace d => ret (replace d df)
  | op_rename d => ret (rename d df)
  | op_unbound name => raise (NameError name)
  | op_drop_tail => ret (drop (tail1_index df) df)
  | op_apply_to_numeric => ret (map_cells to_numeric df)
  | op_set_columns names => set_columns names df
  end.

Fixpoint run (ops : list pandas_op) (df : DataFrame) : Py DataFrame :=
  match ops with
  | [] => ret df
  | o :: ops' => df' <- exec o df ;; run ops' df'
  end.

End Pandas.

(** ** [pd.concat(frames, axis=1)]: outer join on the index *)

(** Insertion into an increasing list without repetition. *)
Fixpoint insert (t : Z) (l : list Z) : list Z :=
  match l with
  | [] => [t]
  | x :: l' =>
      if t <? x then t :: l
      else if t =? x then l
      else x :: insert t l'
  end.

(** The union of the indexes, in chronological order. *)
Definition union_index (dfs : list DataFrame) : list Z :=
  fold_right insert [] (flat_map index dfs).

(** The cells a frame contributes at label [t]: its row there, or one
    missing-value marker per column. *)
Definition row_at (df : DataFrame) (t : Z) : list cell :=
  match find (fun r => fst r =? t) (rows df) with
  | Some r => snd r
  | None => repeat NaN (List.length (columns df))
  end.

(** One row per label of the union; a frame without the label contributes
    missing values.  The frames of one query come from one historian: they
    share its zone and each is in chronological order. *)
Definition pd_concat (dfs : list DataFrame) : Py DataFrame :=
  match dfs with
  | [] => raise (ValueError "No objects to concatenate")
  | d0 :: _ =>
      ret {| columns := flat_map columns dfs;
             rows := map (fun t => (t, flat_map (fun d => row_at d t) dfs))
                         (union_index dfs);
             tz := tz d0 |}
  end.

(** ** The historian, as PIconnect presents it *)

(** The members of [PIconnect.PIConsts.SummaryType] the scripts use. *)
Inductive SummaryType : Type :=
| AVERAGE | MAXIMUM | MINIMUM | TOTAL | RANGE | COUNT | STD_DEV.

(** [SummaryType(...).name], the label PIconnect gives the column of a
    summary. *)
Definition SummaryType_name (k : SummaryType) : string :=
  match k with
  | AVERAGE => "AVERAGE"
  | MAXIMUM => "MAXIMUM"
  | MINIMUM => "MINIMUM"
  | TOTAL => "TOTAL"
  | RANGE => "RANGE"
  | COUNT => "COUNT"
  | STD_DEV => "STD_DEV"
  end.

(** A point found by [server.search]: its tag and the samples the historian
    holds for a start, an end and an interval. *)
Record PIPoint : Type := mkPoint {
  tag : string;
  interpolated : string -> string -> string -> list (Z * cell);
  summary : string -> string -> string -> SummaryType -> list (Z * cell)
}.

(** [PIConfig.DEFAULT_TIMEZONE], the zone PIconnect attaches to the instants
    it returns. *)
Definition DEFAULT_TIMEZONE : string := "Europe/Amsterdam".

Definition series (name : string) (samples : list (Z * cell)) : DataFrame :=
  {| columns := [name];
     rows := map (fun s => (fst s, [snd s])) samples;
     tz := Some DEFAULT_TIMEZONE |}.

(** [point.interpolated_values(start, end, interval)]: a series named after
    the tag, indexed by aware instants. *)
Definition interpolated_values (point : PIPoint) (start end_ interval : string)
  : DataFrame :=
  series (tag point) (interpolated point start end_ interval).

(** [point.summaries(start, end, interval, kind)]: a frame of one column
    named after the summary kind. *)
Definition summaries (point : PIPoint) (start end_ interval : string)
  (kind : SummaryType) : DataFrame :=
  series (SummaryType_name kind) (summary point start end_ interval kind).

(** The chain [if summaryType == 'average': ... elif ...] shared by the four
    functions: the kind selected, or [None] for its [else] branch. *)
Definition summary_kind (summaryType : string) : option SummaryType :=
  if String.eqb summaryType "average" then Some AVERAGE
  else if String.eqb summaryType "maximum" then Some MAXIMUM
  else if String.eqb summaryType "minimum" then Some MINIMUM
  else if String.eqb summaryType "total" then Some TOTAL
  else if String.eqb summaryType "range" then Some RANGE
  else if String.eqb summaryType "count" then Some COUNT
  else if String.eqb summaryType "std_dev" then Some STD_DEV
  else None.

(** The unpacking of the transposed csv rows into [query] and [var_names],
    on a two-column file; no row gives nothing to unpack. *)
Definition read_tags (csvFile : list (string * string))
  : Py (list string * list string) :=
  match csvFile with
  | [] => raise (ValueError "not enough values to unpack (expected 2, got 0)")
  | _ => ret (map fst csvFile, map snd csvFile)
  end.

(** A loop body either goes on with its accumulator or leaves the function
    through a bare [return]. *)
Inductive flow (A : Type) : Type :=
| Continue (a : A)
| Return_None.
Arguments Continue {A} a.
Arguments Return_None {A}.

(** The fixed constants of the scripts. *)
Definition zone : string := "Canada/Pacific".
Definition states : list (string * cell) :=
  [("RUNNING", Num 1); ("STOPPED", Num 0); ("FAIL", Num 0)].
Definition sentinel : string := "[-11059] No Good Data For Calculation".

(** ** [PI_Data.py] *)

Module PI_Data.
Section Server.

Variable utc_offset : string -> Z -> Z.
Variable parse_numeric : string -> option Z.

(** [server.search] on one tag expression; on a list PIconnect searches
    each expression in turn. *)
Variable search : string -> list PIPoint.

Definition search_all (query : list string) : list PIPoint :=
  flat_map search query.

(** The [for point in points] loop of [PI_Call] (lines 123-148).  Under
    'sampled' the series is fetched into [tmp] and the body ends: the
    [append] belongs to the 'summary' branch. *)
Fixpoint PI_Call_loop (start end_ interval dataType summaryType : string)
  (points : list PIPoint) (data : list DataFrame)
  : Py (flow (list DataFrame)) :=
  match points with
  | [] => ret (Continue data)
  | point :: points' =>
      if String.eqb dataType "sampled" then
        let tmp := interpolated_values point start end_ interval in
        PI_Call_loop start end_ interval dataType summaryType points' data
      else if String.eqb dataType "summary" then
        match summary_kind summaryType with
        | Some kind =>
            let tmp := summaries point start end_ interval kind in
            let tmp := rename [("AVERAGE", tag point)] tmp in
            PI_Call_loop start end_ interval dataType summaryType points'
              (data ++ [tmp])
        | None =>
            print "ERROR: Summary type not valid." ;;; ret Return_None
        end
      else
        print "ERROR: Data type not valid." ;;; ret Return_None
  end.

(** Lines 150-159 of [PI_Call], after [pd.concat].  Line 155 builds its
    argument from [var_name], a name bound neither in [PI_Call] nor in the
    module. *)
Definition PI_Call_post (dataType : string) (var_names : list string)
  : list pandas_op :=
  [op_tz_convert zone; op_tz_localize_none]
  ++ (if String.eqb dataType "sampled"
      then [op_DataFrame; op_tz_convert zone; op_tz_localize_none;
            op_replace states; op_unbound "var_name"; op_drop_tail]
      else [])
  ++ [op_apply_to_numeric; op_replace [(sentinel, NaN)];
      op_set_columns var_names].

Definition PI_Call (start end_ interval : string)
  (csvFile : list (string * string)) (dataType summaryType : string)
  : Py (option DataFrame) :=
  qv <- read_tags csvFile ;;
  let query := fst qv in
  let var_names := snd qv in
  let points := search_all query in
  r <- PI_Call_loop start end_ interval dataType summaryType points [] ;;
  match r with
  | Return_None => ret None
  | Continue data =>
      data <- pd_concat data ;;
      data <- run utc_offset parse_numeric
                (PI_Call_post dataType var_names) data ;;
      ret (Some data)
  end.

(** Lines 188-189 of [PI_Call_Tag], the end of the 'summary' branch. *)
Definition PI_Call_Tag_summary (var_name : string) : list pandas_op :=
  [op_rename [("AVERAGE", var_name)]; op_tz_convert zone;
   op_tz_localize_none].

(** Lines 193-200 of [PI_Call_Tag]. *)
Definition PI_Call_Tag_post (query var_name dataType : string)
  : list pandas_op :=
  (if String.eqb dataType "sampled"
   then [op_DataFrame; op_tz_convert zone; op_tz_localize_none;
         op_replace states; op_rename [(query, var_name)]; op_drop_tail]
   else [])
  ++ [op_apply_to_numeric; op_replace [(sentinel, NaN)]].

Definition PI_Call_Tag (start end_ interval query var_name : string)
  (dataType summaryType : string) : Py (option DataFrame) :=
  match search query with
  | [] => raise (IndexError "list index out of range")
  | point :: _ =>
      if String.eqb dataType "sampled" then
        let data := interpolated_values point start end_ interval in
        data <- run utc_offset parse_numeric
                  (PI_Call_Tag_post query var_name dataType) data ;;
        ret (Some data)
      else if String.eqb dataType "summary" then
        match summary_kind summaryType with
        | Some kind =>
            let data := summaries point start end_ interval kind in
            data <- run utc_offset parse_numeric
                      (PI_Call_Tag_summary var_name
                       ++ PI_Call_Tag_post query var_name dataType) data ;;
            ret (Some data)
        | None =>
            print "ERROR: Summary type not valid." ;;; ret None
        end
      else
        print "ERROR: Data type not valid." ;;; ret None
  end.

End Server.
End PI_Data.

(** ** [PI-Data-Extraction.py] *)

Module PI_Data_Extraction.
Section Server.

Variable utc_offset : string -> Z -> Z.
Variable parse_numeric : string -> option Z.
Variable search : string -> list PIPoint.

Definition search_all (query : list string) : list PIPoint :=
  flat_map search query.

(** The loop of [PI_Call] (lines 79-105): here the summary's column is
    set to the point's tag. *)
Fixpoint PI_Call_loop (start end_ interval dataType summaryType : string)
  (points : list PIPoint) (data : list DataFrame)
  : Py (flow (list DataFrame)) :=
  match points with
  | [] => ret (Continue data)
  | point :: points' =>
      if String.eqb dataType "sampled" then
        let tmp := interpolated_values point start end_ interval in
        PI_Call_loop start end_ interval dataType summaryType points' data
      else if String.eqb dataType "summary" then
        match summary_kind summaryType with
        | Some kind =>
            let tmp := summaries point start end_ interval kind in
            tmp <- set_columns [tag point] tmp ;;
            PI_Call_loop start end_ interval dataType summaryType points'
              (data ++ [tmp])
        | None =>
            print "ERROR: Summary type not valid." ;;; ret Return_None
        end
      else
        print "ERROR: Data type not valid." ;;; ret Return_None
  end.

(** Lines 108-109 of [PI_Call]. *)
Definition PI_Call_post (var_names : list string) : list pandas_op :=
  [op_tz_convert zone; op_tz_localize_none; op_set_columns var_names].

Definition PI_Call (start end_ interval : string)
  (csvFile : list (string * string)) (dataType summaryType : string)
  : Py (option DataFrame) :=
  qv <- read_tags csvFile ;;
  let query := fst qv in
  let var_names := snd qv in
  let points := search_all query in
  r <- PI_Call_loop start end_ interval dataType summaryType points [] ;;
  match r with
  | Return_None => ret None
  | Continue data =>
      data <- pd_concat data ;;
      data <- run utc_offset parse_numeric (PI_Call_post var_names) data ;;
      ret (Some data)
  end.

(** Lines 175-176 of [PI_Call_Tag]. *)
Definition PI_Call_Tag_summary (var_name : string) : list pandas_op :=
  [op_set_columns [var_name]; op_tz_convert zone; op_tz_localize_none].

(** Under 'sampled' the series is returned as the historian gave it. *)
Definition PI_Call_Tag (start end_ interval query var_name : string)
  (dataType summaryType : string) : Py (option DataFrame) :=
  match search query with
  | [] => raise (IndexError "list index out of range")
  | point :: _ =>
      if String.eqb dataType "sampled" then
        let data := interpolated_values point start end_ interval in
        ret (Some data)
      else if String.eqb dataType "summary" then
        match summary_kind summaryType with
        | Some kind =>
            let data := summaries point start end_ interval kind in
            data <- run utc_offset parse_numeric
                      (PI_Call_Tag_summary var_name) data ;;
            ret (Some data)
        | None =>
            print "ERROR: Summary type not valid." ;;; ret None
        end
      else
        print "ERROR: Data type not valid." ;;; ret None
  end.

End Server.
End PI_Data_Extraction.

(** ** Notions used to state the properties *)

(** A series after [tz_convert(zone).tz_localize(None)]: wall-clock labels
    of the fixed zone, no zone attached. *)
Definition naive_series (utc_offset : string -> Z -> Z) (name : string)
  (samples : list (Z * cell)) : DataFrame :=
  {| columns := [name];
     rows := map (fun s => (wall_clock utc_offset (Some zone) (fst s), [snd s]))
                 samples;
     tz := None |}.

(** [data.drop(data.tail(1).index)] *)
Definition drop_tail (df : DataFrame) : DataFrame := drop (tail1_index df) df.

(** What lines 196-200 of [PI_Data.py] make of one cell under 'sampled',
    and what lines 199-200 make of it under 'summary'. *)
Definition sampled_cell (parse_numeric : string -> option Z) (c : cell) : cell :=
  replace_cell [(sentinel, NaN)]
    (to_numeric parse_numeric (replace_cell states c)).

Definition summary_cell (parse_numeric : string -> option Z) (c : cell) : cell :=
  replace_cell [(sentinel, NaN)] (to_numeric parse_numeric c).

(** The list [data] at line 149 of [PI_Data.py] under 'summary': one frame
    per point, in the order of the search. *)
Definition summary_frames (start end_ interval : string) (kind : SummaryType)
  (points : list PIPoint) : list DataFrame :=
  map (fun p => rename [("AVERAGE", tag p)] (summaries p start end_ interval kind))
      points.

(** The same list at line 107 of [PI-Data-Extraction.py]: each frame's
    column is the point's tag. *)
Definition tagged_frames (start end_ interval : string) (kind : SummaryType)
  (points : list PIPoint) : list DataFrame :=
  map (fun p => series (tag p) (summary p start end_ interval kind)) points.

(** The sample a series holds at an instant, or the missing-value marker. *)
Definition value_at (samples : list (Z * cell)) (t : Z) : cell :=
  match find (fun s => fst s =? t) samples with
  | Some s => snd s
  | None => NaN
  end.

(** The two statements that end the post-processing of [PI_Data.py]. *)
Definition is_scrub (o : pandas_op) : bool :=
  match o with
  | op_replace [(k, NaN)] => String.eqb k sentinel
  | _ => false
  end.

Definition is_coercion (o : pandas_op) : bool :=
  match o with
  | op_apply_to_numeric => true
  | _ => false
  end.

(** Position of the first statement of a block that [p] recognises. *)
Fixpoint position (p : pandas_op -> bool) (ops : list pandas_op) : option nat :=
  match ops with
  | [] => None
  | o :: ops' => if p o then Some O else option_map S (position p ops')
  end.

(** Both statements occur in the block and the one recognised by [p] comes
    first. *)
Definition runs_before (p q : pandas_op -> bool) (ops : list pandas_op) : Prop :=
  exists i j, position p ops = Some i /\ position q ops = Some j /\ (i < j)%nat.

(** Lines 193-200 of [PI_Data.py] with the last two statements in the order
    the specification lists them: scrub, then coercion. *)
Definition PI_Call_Tag_post_scrub_first (query var_name dataType : string)
  : list pandas_op :=
  (if String.eqb dataType "sampled"
   then [op_DataFrame; op_tz_convert zone; op_tz_localize_none;
         op_replace states; op_rename [(query, var_name)]; op_drop_tail]
   else [])
  ++ [op_replace [(sentinel, NaN)]; op_apply_to_numeric].

(** A call that prints one line and leaves through a bare [return]: no
    table, no exception. *)
Definition reports (line : string) (m : Py (option DataFrame)) : Prop :=
  m = ([line], inr None).

(** ** Concrete environments, for evaluation *)

(** The offsets of Canada/Pacific between November 2021 and March 2023:
    daylight time (UTC-7) from 2022-03-13 10:00 UTC to 2022-11-06 09:00 UTC,
    standard time (UTC-8) around it. *)
Definition pacific_offset (name : string) (t : Z) : Z :=
  if String.eqb name zone then
    if (1647165600 <=? t) && (t <? 1667725200) then -25200 else -28800
  else 0.

(** Decimal integer literals, the part of the numeric parser the examples
    use. *)
Fixpoint digits (s : string) (acc : Z) : option Z :=
  match s with
  | EmptyString => Some acc
  | String c s' =>
      let d := Z.of_nat (Ascii.nat_of_ascii c) - 48 in
      if (0 <=? d) && (d <=? 9) then digits s' (10 * acc + d) else None
  end.

Definition parse_decimal (s : string) : option Z :=
  match s with
  | EmptyString => None
  | String c s' =>
      if Ascii.eqb c "-"%char
      then match s' with
           | EmptyString => None
           | _ => option_map Z.opp (digits s' 0)
           end
      else digits s 0
  end.

(** A point with the same samples whatever the query window. *)
Definition fixed_point (name : string) (samples : list (Z * cell)) : PIPoint :=
  {| tag := name;
     interpolated := fun _ _ _ => samples;
     summary := fun _ _ _ _ => samples |}.

(** A server that knows the listed points and matches a query by exact tag,
    or every point whose tag starts with the text before a final star. *)
Definition matches (query name : string) : bool :=
  match String.length query with
  | O => false
  | S n =>
      if String.eqb (substring n 1 query) "*"
      then String.prefix (substring 0 n query) name
      else String.eqb query name
  end.

Definition server_of (points : list PIPoint) (query : string) : list PIPoint :=
  filter (fun p => matches query (tag p)) points.

(** The pump of the script's own call (line 206 of [PI_Data.py]), sampled
    every five minutes from 2022-08-01 00:00 Pacific daylight time. *)
Definition pump : PIPoint :=
  fixed_point "SSPP-P-200/RUN.CV"
    [(1659337200, Str "RUNNING"); (1659337500, Str "STOPPED");
     (1659337800, Str "FAIL"); (1659338100, Str "RUNNING")].

(** The same pump sampled every half hour from 08:00 UTC to 09:30 UTC on
    2022-11-06, across the return to standard time at 09:00 UTC: the wall
    clock reads 01:00, 01:30, 01:00, 01:30. *)
Definition pump_november : PIPoint :=
  fixed_point "SSPP-P-200/RUN.CV"
    [(1667721600, Str "RUNNING"); (1667723400, Str "STOPPED");
     (1667725200, Str "RUNNING"); (1667727000, Str "STOPPED")].

(** The meters of the examples in the module docstring. *)
Definition flow_meter : PIPoint :=
  fixed_point "P1-FIC-11-024/PV.CV"
    [(1659337200, Num 5); (1659337800, Num 7)].

Definition power_meter : PIPoint :=
  fixed_point "P1-KW-11-024/PV.CV"
    [(1659337200, Num 40); (1659337500, Str sentinel); (1659337800, Num 41)].

(** ** The module-level call of [PI_Data.py] *)

Module PI_Data_toplevel.

(** Line 206: importing the module runs this extraction and binds [df]. *)
Definition df (utc_offset : string -> Z -> Z)
  (parse_numeric : string -> option Z) (search : string -> list PIPoint)
  : Py (option DataFrame) :=
  PI_Data.PI_Call_Tag utc_offset parse_numeric search "2022-08-01 00:00:00"
    "2022-09-01 00:00:00" "5m" "SSPP-P-200/RUN.CV" "P200_ON" "sampled"
    "average".

End PI_Data_toplevel.

(** ** Further notions used to state the properties *)

(** A call that returns a table: nothing printed, no exception. *)
Definition returns_table (m : Py (option DataFrame)) : Prop :=
  exists table, m = ret (Some table).

(** The summary kinds the [if] chains accept. *)
Definition summary_types : list string :=
  ["average"; "maximum"; "minimum"; "total"; "range"; "count"; "std_dev"].

(** A cell that holds a number or the missing-value marker. *)
Definition numeric_or_missing (c : cell) : Prop :=
  match c with
  | Str _ => False
  | _ => True
  end.

(** Two meters summarised hourly on 2022-11-06, one on the hour from 08:00
    UTC and one on the half hour from 08:30 UTC, across the return to
    standard time at 09:00 UTC. *)
Definition meter_on_the_hour : PIPoint :=
  fixed_point "P1-FIC-11-024/PV.CV"
    [(1667721600, Num 5); (1667725200, Num 7)].

Definition meter_on_the_half_hour : PIPoint :=
  fixed_point "P1-KW-11-024/PV.CV"
    [(1667723400, Num 40); (1667727000, Num 41)].

(** * Properties *)

(** ** Outcomes *)

Lemma bind_ret {A B} (a : A) (f : A -> Py B) : bind (ret a) f = f a.
Proof. unfold bind, ret. now destruct (f a). Qed.

Lemma bind_raise {A B} (e : exn) (f : A -> Py B) : bind (raise e) f = raise e.
Proof. reflexivity. Qed.

Lemma run_app uo pn (ops1 ops2 : list pandas_op) (df : DataFrame) :
  run uo pn (ops1 ++ ops2) df = (d <- run uo pn ops1 df ;; run uo pn ops2 d).
Proof.
  revert df. induction ops1 as [|o ops1 IH]; intros df; cbn [run app].
  - now rewrite bind_ret.
  - destruct (exec uo pn o df) as [out [e|d]]; cbn [bind]; [reflexivity|].
    rewrite IH. destruct (run uo pn ops1 d) as [out1 [e1|d1]]; cbn [bind].
    + reflexivity.
    + destruct (run uo pn ops2 d1) as [out2 r2]. now rewrite app_assoc.
Qed.

(** ** Cell-wise operations commute with the operations on labels *)

Lemma map_cells_map_cells (f g : cell -> cell) (df : DataFrame) :
  map_cells f (map_cells g df) = map_cells (fun c => f (g c)) df.
Proof.
  unfold map_cells; simpl. f_equal.
  rewrite map_map. apply map_ext. intros [t cs]; simpl. now rewrite map_map.
Qed.

Lemma map_cells_ext (f g : cell -> cell) (df : DataFrame) :
  (forall c, f c = g c) -> map_cells f df = map_cells g df.
Proof.
  intros E. unfold map_cells. f_equal.
  apply map_ext. intros [t cs]; simpl. f_equal. now apply map_ext.
Qed.

Lemma filter_label_map {A B : Type} (p : Z -> bool) (g : A -> B)
  (l : list (Z * A)) :
  filter (fun r => p (fst r)) (map (fun r => (fst r, g (snd r))) l)
  = map (fun r => (fst r, g (snd r))) (filter (fun r => p (fst r)) l).
Proof.
  induction l as [|[t a] l IH]; simpl; [reflexivity|].
  destruct (p t); simpl; now rewrite IH.
Qed.

Lemma drop_map_cells (f : cell -> cell) (labels : list Z) (df : DataFrame) :
  drop labels (map_cells f df) = map_cells f (drop labels df).
Proof.
  unfold drop, map_cells; simpl. f_equal.
  apply (filter_label_map (fun t => negb (existsb (Z.eqb t) labels)) (map f)).
Qed.

Lemma tail1_index_map_cells (f : cell -> cell) (df : DataFrame) :
  tail1_index (map_cells f df) = tail1_index df.
Proof.
  unfold tail1_index, map_cells; simpl. rewrite <- map_rev.
  now destruct (rev (rows df)).
Qed.

Lemma nrows_map_cells (f : cell -> cell) (df : DataFrame) :
  nrows (map_cells f df) = nrows df.
Proof. unfold nrows, map_cells; simpl. apply length_map. Qed.

Lemma iat_map_cells (f : cell -> cell) (df : DataFrame) (i j : nat) :
  iat (map_cells f df) i j = option_map f (iat df i j).
Proof.
  unfold iat, map_cells; simpl. rewrite nth_error_map.
  destruct (nth_error (rows df) i) as [[t cs]|]; simpl; [|reflexivity].
  apply nth_error_map.
Qed.

(** ** The single-tag function of [PI_Data.py] in closed form *)

Lemma run_localize uo pn (name : string) (samples : list (Z * cell)) :
  run uo pn [op_DataFrame; op_tz_convert zone; op_tz_localize_none]
    (series name samples)
  = ret (naive_series uo name samples).
Proof.
  cbn [run exec]. rewrite bind_ret. unfold tz_convert, series; cbn [tz].
  rewrite !bind_ret. unfold tz_localize_none, naive_series; cbn [tz rows columns].
  now rewrite map_map.
Qed.

Lemma PI_Call_Tag_post_sampled uo pn (query var_name name : string)
  (samples : list (Z * cell)) :
  run uo pn (PI_Data.PI_Call_Tag_post query var_name "sampled")
    (series name samples)
  = ret (map_cells (sampled_cell pn)
           (drop_tail
              (naive_series uo (rename_label [(query, var_name)] name) samples))).
Proof.
  unfold PI_Data.PI_Call_Tag_post. rewrite String.eqb_refl.
  change (?a ++ ?b) with
    ([op_DataFrame; op_tz_convert zone; op_tz_localize_none]
     ++ [op_replace states; op_rename [(query, var_name)]; op_drop_tail;
         op_apply_to_numeric; op_replace [(sentinel, NaN)]]).
  rewrite run_app, run_localize, bind_ret.
  cbn [run exec]. rewrite !bind_ret. unfold replace, drop_tail.
  change (rename [(query, var_name)] (map_cells (replace_cell states)
            (naive_series uo name samples)))
    with (map_cells (replace_cell states)
            (naive_series uo (rename_label [(query, var_name)] name) samples)).
  rewrite tail1_index_map_cells, drop_map_cells, !map_cells_map_cells.
  reflexivity.
Qed.

Lemma PI_Call_Tag_post_summary uo pn (query var_name name : string)
  (samples : list (Z * cell)) :
  run uo pn (PI_Data.PI_Call_Tag_summary var_name
             ++ PI_Data.PI_Call_Tag_post query var_name "summary")
    (series name samples)
  = ret (map_cells (summary_cell pn)
           (naive_series uo (rename_label [("AVERAGE", var_name)] name) samples)).
Proof.
  unfold PI_Data.PI_Call_Tag_post, PI_Data.PI_Call_Tag_summary.
  change (String.eqb "summary" "sampled") with false.
  cbn [app run exec]. rewrite !bind_ret. unfold tz_convert; cbn [tz rename series].
  rewrite !bind_ret. unfold replace. rewrite map_cells_map_cells.
  unfold tz_localize_none, naive_series, summary_cell, rename, series.
  cbn [tz rows columns map]. now rewrite map_map.
Qed.

Lemma PI_Call_Tag_sampled_eq uo pn search start end_ interval query var_name
  summaryType point rest :
  search query = point :: rest ->
  PI_Data.PI_Call_Tag uo pn search start end_ interval query var_name
    "sampled" summaryType
  = ret (Some (map_cells (sampled_cell pn)
                 (drop_tail
                    (naive_series uo
                       (rename_label [(query, var_name)] (tag point))
                       (interpolated point start end_ interval))))).
Proof.
  intros E. unfold PI_Data.PI_Call_Tag. rewrite E.
  change (String.eqb "sampled" "sampled") with true. cbv iota.
  unfold interpolated_values. rewrite PI_Call_Tag_post_sampled.
  now rewrite bind_ret.
Qed.

Lemma PI_Call_Tag_summary_eq uo pn search start end_ interval query var_name
  summaryType kind point rest :
  search query = point :: rest ->
  summary_kind summaryType = Some kind ->
  PI_Data.PI_Call_Tag uo pn search start end_ interval query var_name
    "summary" summaryType
  = ret (Some (map_cells (summary_cell pn)
                 (naive_series uo
                    (rename_label [("AVERAGE", var_name)]
                       (SummaryType_name kind))
                    (summary point start end_ interval kind)))).
Proof.
  intros E K. unfold PI_Data.PI_Call_Tag. rewrite E.
  change (String.eqb "summary" "sampled") with false.
  change (String.eqb "summary" "summary") with true. cbv iota.
  rewrite K. unfold summaries. rewrite PI_Call_Tag_post_summary.
  now rewrite bind_ret.
Qed.

(** ** The sentinel scrub *)

Lemma scrub_cell_idempotent (c : cell) :
  replace_cell [(sentinel, NaN)] (replace_cell [(sentinel, NaN)] c)
  = replace_cell [(sentinel, NaN)] c.
Proof.
  destruct c as [z|s|]; cbn [replace_cell]; try reflexivity.
  destruct (String.eqb s sentinel) eqn:E; cbn [replace_cell].
  - reflexivity.
  - now rewrite E.
Qed.

(** C8. Scrubbing the sentinel is idempotent: on every frame, replacing the
    sentinel string by the missing-value marker a second time changes
    nothing, for the operation itself and for the statement run twice. *)
Theorem sentinel_scrub_idempotent (df : DataFrame) :
  replace [(sentinel, NaN)] (replace [(sentinel, NaN)] df)
  = replace [(sentinel, NaN)] df
  /\ forall uo pn,
       run uo pn [op_replace [(sentinel, NaN)]; op_replace [(sentinel, NaN)]] df
       = run uo pn [op_replace [(sentinel, NaN)]] df.
Proof.
  assert (E : replace [(sentinel, NaN)] (replace [(sentinel, NaN)] df)
              = replace [(sentinel, NaN)] df).
  { unfold replace. rewrite map_cells_map_cells.
    apply map_cells_ext, scrub_cell_idempotent. }
  split; [exact E|]. intros uo pn. cbn [run exec].
  rewrite !bind_ret. now rewrite E.
Qed.

(** ** The categorical substitution *)

Lemma replace_states_cell (c : cell) :
  replace_cell states c
  = match c with
    | Str s =>
        if String.eqb s "RUNNING" then Num 1
        else if String.eqb s "STOPPED" then Num 0
        else if String.eqb s "FAIL" then Num 0
        else Str s
    | _ => c
    end.
Proof. destruct c; reflexivity. Qed.

Lemma replace_states_other (s : string) :
  s <> "RUNNING" -> s <> "STOPPED" -> s <> "FAIL" ->
  replace_cell states (Str s) = Str s.
Proof.
  intros H1 H2 H3. rewrite replace_states_cell.
  apply String.eqb_neq in H1, H2, H3. now rewrite H1, H2, H3.
Qed.

Lemma iat_replace (d : list (string * cell)) (df : DataFrame) (i j : nat)
  (c : cell) :
  iat df i j = Some c -> iat (replace d df) i j = Some (replace_cell d c).
Proof. intros H. unfold replace. now rewrite iat_map_cells, H. Qed.

(** C5. In [PI_Call_Tag] of [PI_Data.py]: the substitution statement turns
    every cell equal to RUNNING into 1, to STOPPED into 0 and to FAIL into 0,
    and leaves every other string as it is; under 'sampled' each cell of the
    output is the scrubbed numeric coercion of the substituted sample, so
    the three tokens come out as 1, 0 and 0; under 'summary' each cell is the
    scrubbed numeric coercion of the sample itself, no substitution takes
    place. *)
Theorem categorical_substitution uo pn search start end_ interval query
  var_name summaryType kind point rest :
  search query = point :: rest ->
  summary_kind summaryType = Some kind ->
  (forall df i j s,
     iat df i j = Some (Str s) ->
     (s = "RUNNING" -> iat (replace states df) i j = Some (Num 1)) /\
     (s = "STOPPED" -> iat (replace states df) i j = Some (Num 0)) /\
     (s = "FAIL" -> iat (replace states df) i j = Some (Num 0)) /\
     (s <> "RUNNING" -> s <> "STOPPED" -> s <> "FAIL" ->
      iat (replace states df) i j = Some (Str s)))
  /\ (forall st, exists table,
       PI_Data.PI_Call_Tag uo pn search start end_ interval query var_name
         "sampled" st = ret (Some table)
       /\ forall i j c,
            iat (drop_tail
                   (naive_series uo
                      (rename_label [(query, var_name)] (tag point))
                      (interpolated point start end_ interval))) i j = Some c ->
            iat table i j
            = Some (replace_cell [(sentinel, NaN)]
                      (to_numeric pn (replace_cell states c)))
            /\ (c = Str "RUNNING" -> iat table i j = Some (Num 1))
            /\ (c = Str "STOPPED" -> iat table i j = Some (Num 0))
            /\ (c = Str "FAIL" -> iat table i j = Some (Num 0)))
  /\ (exists table,
       PI_Data.PI_Call_Tag uo pn search start end_ interval query var_name
         "summary" summaryType = ret (Some table)
       /\ forall i j c,
            iat (naive_series uo
                   (rename_label [("AVERAGE", var_name)] (SummaryType_name kind))
                   (summary point start end_ interval kind)) i j = Some c ->
            iat table i j
            = Some (replace_cell [(sentinel, NaN)] (to_numeric pn c))).
Proof.
  intros E K. split; [|split].
  - intros df i j s H. repeat split; intros; subst;
      try (now rewrite (iat_replace states df i j _ H)).
    rewrite (iat_replace states df i j _ H). now rewrite replace_states_other.
  - intros st. eexists. split.
    + exact (PI_Call_Tag_sampled_eq uo pn search start end_ interval query
               var_name st point rest E).
    + intros i j c H. rewrite iat_map_cells, H. unfold sampled_cell.
      repeat split; intros; subst; reflexivity.
  - eexists. split.
    + exact (PI_Call_Tag_summary_eq uo pn search start end_ interval query
               var_name summaryType kind point rest E K).
    + intros i j c H. now rewrite iat_map_cells, H.
Qed.

Lemma categorical_substitution_witness :
  exists table,
    PI_Data.PI_Call_Tag pacific_offset parse_decimal (server_of [pump])
      "2022-08-01 00:00:00" "2022-09-01 00:00:00" "5m" "SSPP-P-200/RUN.CV"
      "P200_ON" "sampled" "average" = ret (Some table)
    /\ iat table 0 0 = Some (Num 1)
    /\ iat table 1 0 = Some (Num 0)
    /\ iat table 2 0 = Some (Num 0).
Proof.
  destruct (categorical_substitution pacific_offset parse_decimal
              (server_of [pump]) "2022-08-01 00:00:00" "2022-09-01 00:00:00"
              "5m" "SSPP-P-200/RUN.CV" "P200_ON" "average" AVERAGE pump []
              eq_refl eq_refl) as (_ & S & _).
  destruct (S "average") as (table & E & C).
  exists table. split; [exact E|].
  split; [|split].
  - exact (proj1 (proj2 (C 0%nat 0%nat (Str "RUNNING") eq_refl)) eq_refl).
  - exact (proj1 (proj2 (proj2 (C 1%nat 0%nat (Str "STOPPED") eq_refl)))
             eq_refl).
  - exact (proj2 (proj2 (proj2 (C 2%nat 0%nat (Str "FAIL") eq_refl)))
             eq_refl).
Defined.

(** ** The column of the single-tag functions *)

Lemma PI_Call_Tag_summary_columns uo pn search start end_ interval query
  var_name summaryType kind point rest :
  search query = point :: rest ->
  summary_kind summaryType = Some kind ->
  exists table,
    PI_Data.PI_Call_Tag uo pn search start end_ interval query var_name
      "summary" summaryType = ret (Some table)
    /\ columns table
       = [if String.eqb "AVERAGE" (SummaryType_name kind)
          then var_name else SummaryType_name kind].
Proof.
  intros E K. eexists. split.
  - exact (PI_Call_Tag_summary_eq uo pn search start end_ interval query
             var_name summaryType kind point rest E K).
  - cbn [columns map_cells naive_series]. unfold rename_label; cbn [lookup].
    now destruct (String.eqb "AVERAGE" (SummaryType_name kind)).
Qed.

Lemma PI_Call_Tag_extraction_columns uo pn search start end_ interval query
  var_name summaryType kind point rest :
  search query = point :: rest ->
  summary_kind summaryType = Some kind ->
  exists table,
    PI_Data_Extraction.PI_Call_Tag uo pn search start end_ interval query
      var_name "summary" summaryType = ret (Some table)
    /\ columns table = [var_name].
Proof.
  intros E K. unfold PI_Data_Extraction.PI_Call_Tag. rewrite E.
  change (String.eqb "summary" "sampled") with false.
  change (String.eqb "summary" "summary") with true. cbv iota. rewrite K.
  unfold PI_Data_Extraction.PI_Call_Tag_summary, summaries.
  cbn [run exec]. unfold set_columns, series; cbn [columns List.length Nat.eqb].
  rewrite !bind_ret. unfold tz_convert; cbn [tz]. rewrite !bind_ret.
  eexists. split; reflexivity.
Qed.

(** C1. The second example of the module docstring of [PI_Data.py], which
    promises a frame whose variable is renamed P1-kW-Max: the historian
    labels the summary MAXIMUM, the rename of line 188 looks for AVERAGE, and
    the output column is MAXIMUM, not the caller's variable name; the same
    call in [PI-Data-Extraction.py], which assigns the column list, yields
    P1-kW-Max. *)
Theorem PI_Call_Tag_maximum_column :
  exists table table',
    PI_Data.PI_Call_Tag pacific_offset parse_decimal
      (server_of [flow_meter; power_meter]) "1/1/2019" "1/1/2020" "10m"
      "P1-FIC-11-024/PV.CV" "P1-kW-Max" "summary" "maximum"
    = ret (Some table)
    /\ columns table = ["MAXIMUM"]
    /\ columns table <> ["P1-kW-Max"]
    /\ PI_Data_Extraction.PI_Call_Tag pacific_offset parse_decimal
         (server_of [flow_meter; power_meter]) "1/1/2019" "1/1/2020" "10m"
         "P1-FIC-11-024/PV.CV" "P1-kW-Max" "summary" "maximum"
       = ret (Some table')
    /\ columns table' = ["P1-kW-Max"].
Proof.
  do 2 eexists. split; [reflexivity|]. split; [reflexivity|].
  split; [discriminate|]. split; reflexivity.
Qed.

(** ** The trailing trim *)

Lemma tail1_index_last (df : DataFrame) front r :
  rows df = front ++ [r] -> tail1_index df = [fst r].
Proof.
  intros E. unfold tail1_index. rewrite E, rev_app_distr. reflexivity.
Qed.




(** X18. Under 'summary' [PI_Call_Tag] of [PI_Data.py] trims nothing: the
    table has one row per value of the historian's summary. *)
Lemma summary_keeps_rows uo pn search start end_ interval query var_name
  summaryType kind point rest :
  search query = point :: rest ->
  summary_kind summaryType = Some kind ->
  exists table,
    PI_Data.PI_Call_Tag uo pn search start end_ interval query var_name
      "summary" summaryType = ret (Some table)
    /\ nrows table = nrows (summaries point start end_ interval kind).
Proof.
  intros E K. eexists. split.
  - exact (PI_Call_Tag_summary_eq uo pn search start end_ interval query
             var_name summaryType kind point rest E K).
  - rewrite nrows_map_cells. unfold nrows, naive_series, summaries, series.
    cbn [rows]. now rewrite !length_map.
Qed.

(** C6. A query that ends in the hour repeated by the return to standard
    time: the historian gives four samples, their wall-clock labels are
    01:00, 01:30, 01:00, 01:30, and the trim by label of line 198 removes both
    rows labelled 01:30: the 'sampled' output has two rows, not three, while
    the 'summary' output of the same samples has four. *)
Theorem sampled_trim_repeated_hour :
  exists table table',
    PI_Data.PI_Call_Tag pacific_offset parse_decimal (server_of [pump_november])
      "2022-11-06 08:00:00Z" "2022-11-06 09:30:00Z" "30m" "SSPP-P-200/RUN.CV"
      "P200_ON" "sampled" "average" = ret (Some table)
    /\ nrows (interpolated_values pump_november "2022-11-06 08:00:00Z"
                "2022-11-06 09:30:00Z" "30m") = 4%nat
    /\ index table = [1667696400; 1667696400]
    /\ nrows table = 2%nat
    /\ PI_Data.PI_Call_Tag pacific_offset parse_decimal
         (server_of [pump_november]) "2022-11-06 08:00:00Z"
         "2022-11-06 09:30:00Z" "30m" "SSPP-P-200/RUN.CV" "P200_ON" "summary"
         "average" = ret (Some table')
    /\ nrows table' = 4%nat.
Proof.
  do 2 eexists. repeat split; reflexivity.
Qed.

(** ** The loop of [PI_Call] *)

Lemma summary_kind_None (summaryType : string) :
  ~ In summaryType
      ["average"; "maximum"; "minimum"; "total"; "range"; "count"; "std_dev"] ->
  summary_kind summaryType = None.
Proof.
  intros N. unfold summary_kind.
  repeat match goal with
         | |- context [String.eqb summaryType ?k] =>
             destruct (String.eqb_spec summaryType k) as [->|_];
             [exfalso; apply N; cbn [In]; tauto|]
         end.
  reflexivity.
Qed.

Lemma not_mode (dataType : string) :
  ~ In dataType ["summary"; "sampled"] ->
  String.eqb dataType "sampled" = false /\ String.eqb dataType "summary" = false.
Proof.
  intros N. split; apply String.eqb_neq; intros ->; apply N; cbn [In]; tauto.
Qed.

Lemma loop_sampled start end_ interval summaryType points data :
  PI_Data.PI_Call_loop start end_ interval "sampled" summaryType points data
  = ret (Continue data)
  /\ PI_Data_Extraction.PI_Call_loop start end_ interval "sampled" summaryType
       points data = ret (Continue data).
Proof.
  split; induction points as [|p ps IH]; cbn [PI_Data.PI_Call_loop
    PI_Data_Extraction.PI_Call_loop]; try reflexivity;
    change (String.eqb "sampled" "sampled") with true; cbv iota; exact IH.
Qed.

Lemma loop_summary start end_ interval summaryType kind points data :
  summary_kind summaryType = Some kind ->
  PI_Data.PI_Call_loop start end_ interval "summary" summaryType points data
  = ret (Continue
           (data ++ map (fun p => rename [("AVERAGE", tag p)]
                                    (summaries p start end_ interval kind))
                        points)).
Proof.
  intros K. revert data.
  induction points as [|p ps IH]; intros data; cbn [PI_Data.PI_Call_loop map].
  - now rewrite app_nil_r.
  - change (String.eqb "summary" "sampled") with false.
    change (String.eqb "summary" "summary") with true. cbv iota.
    rewrite K, IH, <- app_assoc. reflexivity.
Qed.

Lemma loop_summary_extraction start end_ interval summaryType kind points data :
  summary_kind summaryType = Some kind ->
  PI_Data_Extraction.PI_Call_loop start end_ interval "summary" summaryType
    points data
  = ret (Continue
           (data ++ map (fun p => series (tag p)
                                    (summary p start end_ interval kind))
                        points)).
Proof.
  intros K. revert data.
  induction points as [|p ps IH]; intros data;
    cbn [PI_Data_Extraction.PI_Call_loop map].
  - now rewrite app_nil_r.
  - change (String.eqb "summary" "sampled") with false.
    change (String.eqb "summary" "summary") with true. cbv iota.
    rewrite K. unfold set_columns, summaries, series at 1.
    cbn [columns List.length Nat.eqb rows tz]. rewrite bind_ret.
    rewrite IH, <- app_assoc. reflexivity.
Qed.

Lemma loop_invalid_kind start end_ interval summaryType point points data :
  summary_kind summaryType = None ->
  PI_Data.PI_Call_loop start end_ interval "summary" summaryType
    (point :: points) data
  = (["ERROR: Summary type not valid."], inr Return_None)
  /\ PI_Data_Extraction.PI_Call_loop start end_ interval "summary" summaryType
       (point :: points) data
     = (["ERROR: Summary type not valid."], inr Return_None).
Proof.
  intros K. cbn [PI_Data.PI_Call_loop PI_Data_Extraction.PI_Call_loop].
  change (String.eqb "summary" "sampled") with false.
  change (String.eqb "summary" "summary") with true. cbv iota.
  rewrite K. split; reflexivity.
Qed.

Lemma loop_invalid_mode start end_ interval dataType summaryType point points
  data :
  ~ In dataType ["summary"; "sampled"] ->
  PI_Data.PI_Call_loop start end_ interval dataType summaryType
    (point :: points) data
  = (["ERROR: Data type not valid."], inr Return_None)
  /\ PI_Data_Extraction.PI_Call_loop start end_ interval dataType summaryType
       (point :: points) data
     = (["ERROR: Data type not valid."], inr Return_None).
Proof.
  intros N. destruct (not_mode dataType N) as [E1 E2].
  cbn [PI_Data.PI_Call_loop PI_Data_Extraction.PI_Call_loop].
  rewrite E1, E2. split; reflexivity.
Qed.

(** ** [PI_Call] under 'sampled' *)

(** C10. [PI_Call] of [PI_Data.py] with dataType 'sampled' raises for every
    csv file, historian and window, so it never returns a table.  Nothing is
    appended to [data] in that mode and [pd.concat] already refuses the empty
    list; and whatever frame reached line 150, the statements that follow
    would raise too: the index is naive after line 150 and line 153 converts
    it again, and line 155 reads the unbound name [var_name]. *)
Theorem PI_Call_sampled_raises uo pn search start end_ interval csvFile
  summaryType :
  (exists msg,
     PI_Data.PI_Call uo pn search start end_ interval csvFile "sampled"
       summaryType = raise (ValueError msg))
  /\ (forall data var_names,
        exists msg,
          run uo pn (PI_Data.PI_Call_post "sampled" var_names) data
          = raise (TypeError msg))
  /\ (forall cols rws z,
        exists naive,
          run uo pn [op_tz_convert zone; op_tz_localize_none]
            (mkDF cols rws (Some z)) = ret naive
          /\ tz naive = None
          /\ exists msg, exec uo pn (op_tz_convert zone) naive
                         = raise (TypeError msg))
  /\ (forall var_names,
        In (op_unbound "var_name") (PI_Data.PI_Call_post "sampled" var_names)
        /\ forall data, exec uo pn (op_unbound "var_name") data
                        = raise (NameError "var_name")).
Proof.
  split; [|split; [|split]].
  - unfold PI_Data.PI_Call. destruct csvFile as [|row csv];
      cbn [read_tags]; [eexists; reflexivity|].
    rewrite bind_ret. rewrite (proj1 (loop_sampled _ _ _ _ _ _)), bind_ret.
    cbn [pd_concat]. eexists. reflexivity.
  - intros data var_names. unfold PI_Data.PI_Call_post.
    change (String.eqb "sampled" "sampled") with true. cbv iota.
    cbn [app run exec]. unfold tz_convert at 1.
    destruct (tz data); [|eexists; reflexivity].
    rewrite !bind_ret. unfold tz_convert, tz_localize_none; cbn [tz].
    eexists. reflexivity.
  - intros cols rws z. cbn [run exec]. unfold tz_convert at 1; cbn [tz].
    rewrite !bind_ret. eexists. split; [reflexivity|]. split; [reflexivity|].
    cbn [exec]. unfold tz_convert, tz_localize_none; cbn [tz].
    eexists. reflexivity.
  - intros var_names. split; [|reflexivity].
    unfold PI_Data.PI_Call_post.
    change (String.eqb "sampled" "sampled") with true. cbv iota.
    cbn [app In]. tauto.
Qed.

(** ** Unsupported modes and summary kinds *)

Lemma search_all_csv search (csvFile : list (string * string)) point rest :
  PI_Data.search_all search (map fst csvFile) = point :: rest ->
  read_tags csvFile = ret (map fst csvFile, map snd csvFile).
Proof. destruct csvFile; [discriminate|reflexivity]. Qed.

(** C3, as the code has it.  When the search finds at least one point: for
    every dataType other than 'summary' and 'sampled', the four functions
    print 'ERROR: Data type not valid.' and return no table; for dataType
    'summary' and every summaryType other than the seven supported ones,
    they print 'ERROR: Summary type not valid.' and return no table.
    Nothing else is printed, no other mode is fallen back to. *)
Theorem invalid_mode_reported uo pn search start end_ interval csvFile query
  var_name dataType summaryType point rest point' rest' :
  PI_Data.search_all search (map fst csvFile) = point :: rest ->
  search query = point' :: rest' ->
  (~ In dataType ["summary"; "sampled"] ->
   reports "ERROR: Data type not valid."
     (PI_Data.PI_Call uo pn search start end_ interval csvFile dataType
        summaryType)
   /\ reports "ERROR: Data type not valid."
        (PI_Data_Extraction.PI_Call uo pn search start end_ interval csvFile
           dataType summaryType)
   /\ reports "ERROR: Data type not valid."
        (PI_Data.PI_Call_Tag uo pn search start end_ interval query var_name
           dataType summaryType)
   /\ reports "ERROR: Data type not valid."
        (PI_Data_Extraction.PI_Call_Tag uo pn search start end_ interval query
           var_name dataType summaryType))
  /\ (~ In summaryType
          ["average"; "maximum"; "minimum"; "total"; "range"; "count";
           "std_dev"] ->
      reports "ERROR: Summary type not valid."
        (PI_Data.PI_Call uo pn search start end_ interval csvFile "summary"
           summaryType)
      /\ reports "ERROR: Summary type not valid."
           (PI_Data_Extraction.PI_Call uo pn search start end_ interval
              csvFile "summary" summaryType)
      /\ reports "ERROR: Summary type not valid."
           (PI_Data.PI_Call_Tag uo pn search start end_ interval query
              var_name "summary" summaryType)
      /\ reports "ERROR: Summary type not valid."
           (PI_Data_Extraction.PI_Call_Tag uo pn search start end_ interval
              query var_name "summary" summaryType)).
Proof.
  intros P Q. pose proof (search_all_csv search csvFile point rest P) as R.
  assert (P' : PI_Data_Extraction.search_all search (map fst csvFile)
               = point :: rest) by exact P.
  unfold reports, PI_Data.PI_Call, PI_Data_Extraction.PI_Call,
    PI_Data.PI_Call_Tag, PI_Data_Extraction.PI_Call_Tag.
  rewrite R, Q, !bind_ret. cbn [fst snd]. rewrite P, P'. split.
  - intros N. destruct (loop_invalid_mode start end_ interval dataType
                          summaryType point rest [] N) as [L1 L2].
    destruct (not_mode dataType N) as [E1 E2].
    rewrite L1, L2, E1, E2. repeat split; reflexivity.
  - intros N. pose proof (summary_kind_None summaryType N) as K.
    destruct (loop_invalid_kind start end_ interval summaryType point rest []
                K) as [L1 L2].
    rewrite L1, L2.
    change (String.eqb "summary" "sampled") with false.
    change (String.eqb "summary" "summary") with true. cbv iota.
    rewrite K. repeat split; reflexivity.
Qed.

Lemma invalid_mode_reported_witness :
  reports "ERROR: Data type not valid."
    (PI_Data.PI_Call pacific_offset parse_decimal (server_of [flow_meter])
       "1/1/2019" "1/1/2020" "10m" [("P1-FIC-11-024/PV.CV", "P1-Flow")]
       "raw" "mean")
  /\ reports "ERROR: Summary type not valid."
       (PI_Data.PI_Call_Tag pacific_offset parse_decimal
          (server_of [flow_meter]) "1/1/2019" "1/1/2020" "10m"
          "P1-FIC-11-024/PV.CV" "P1-Flow" "summary" "mean").
Proof.
  pose proof (invalid_mode_reported pacific_offset parse_decimal
                (server_of [flow_meter]) "1/1/2019" "1/1/2020" "10m"
                [("P1-FIC-11-024/PV.CV", "P1-Flow")] "P1-FIC-11-024/PV.CV"
                "P1-Flow" "raw" "mean" flow_meter [] flow_meter [] eq_refl
                eq_refl) as [M K].
  split.
  - apply M. cbn [In]. intros [H|[H|[]]]; discriminate H.
  - apply K. cbn [In].
    intros [H|[H|[H|[H|[H|[H|[H|[]]]]]]]]; discriminate H.
Defined.

(** C3, as stated, fails when the search finds no point: the loop of
    [PI_Call] that checks the mode never runs and [pd.concat] raises on the
    empty list; [PI_Call_Tag] raises on the empty search before it looks at
    the mode. *)
Lemma invalid_mode_without_points :
  ~ In "raw" ["summary"; "sampled"]
  /\ server_of [flow_meter] "P9-FIC-11-024/PV.CV" = []
  /\ PI_Data_Extraction.PI_Call pacific_offset parse_decimal
       (server_of [flow_meter]) "1/1/2019" "1/1/2020" "10m"
       [("P9-FIC-11-024/PV.CV", "P9-Flow")] "raw" "average"
     = raise (ValueError "No objects to concatenate")
  /\ ~ reports "ERROR: Data type not valid."
         (PI_Data_Extraction.PI_Call pacific_offset parse_decimal
            (server_of [flow_meter]) "1/1/2019" "1/1/2020" "10m"
            [("P9-FIC-11-024/PV.CV", "P9-Flow")] "raw" "average")
  /\ PI_Data.PI_Call_Tag pacific_offset parse_decimal (server_of [flow_meter])
       "1/1/2019" "1/1/2020" "10m" "P9-FIC-11-024/PV.CV" "P9-Flow" "raw"
       "average"
     = raise (IndexError "list index out of range")
  /\ ~ reports "ERROR: Data type not valid."
         (PI_Data.PI_Call_Tag pacific_offset parse_decimal
            (server_of [flow_meter]) "1/1/2019" "1/1/2020" "10m"
            "P9-FIC-11-024/PV.CV" "P9-Flow" "raw" "average").
Proof.
  split; [cbn [In]; intros [H|[H|[]]]; discriminate H|].
  repeat split; try reflexivity; intros H; discriminate H.
Qed.

(** ** [PI_Call] under 'summary' in closed form *)

Lemma run_post_summary uo pn (names : list string) (df : DataFrame) z :
  tz df = Some z ->
  run uo pn (PI_Data.PI_Call_post "summary" names) df
  = if Nat.eqb (List.length names) (List.length (columns df))
    then ret {| columns := names;
                rows := map (fun r => (wall_clock uo (Some zone) (fst r),
                                       map (summary_cell pn) (snd r)))
                            (rows df);
                tz := None |}
    else raise (ValueError "Length mismatch").
Proof.
  intros A. unfold PI_Data.PI_Call_post.
  change (String.eqb "summary" "sampled") with false. cbv iota.
  cbn [app run exec]. unfold tz_convert. rewrite A, !bind_ret.
  unfold set_columns, replace, tz_localize_none, map_cells.
  cbn [columns rows tz].
  destruct (Nat.eqb (List.length names) (List.length (columns df)));
    [|reflexivity].
  rewrite bind_ret. cbn [columns rows tz]. rewrite !map_map.
  unfold ret. do 3 f_equal. apply map_ext. intros [t cs]. cbn [fst snd].
  unfold summary_cell. now rewrite map_map.
Qed.

Lemma run_post_extraction uo pn (names : list string) (df : DataFrame) z :
  tz df = Some z ->
  run uo pn (PI_Data_Extraction.PI_Call_post names) df
  = if Nat.eqb (List.length names) (List.length (columns df))
    then ret {| columns := names;
                rows := map (fun r => (wall_clock uo (Some zone) (fst r), snd r))
                            (rows df);
                tz := None |}
    else raise (ValueError "Length mismatch").
Proof.
  intros A. unfold PI_Data_Extraction.PI_Call_post.
  cbn [run exec]. unfold tz_convert. rewrite A, !bind_ret.
  unfold set_columns, tz_localize_none. cbn [columns rows tz].
  destruct (Nat.eqb (List.length names) (List.length (columns df)));
    [|reflexivity].
  now rewrite bind_ret.
Qed.

Lemma length_columns_frames {A : Type} (f : A -> DataFrame) (l : list A) :
  (forall a, List.length (columns (f a)) = 1%nat) ->
  List.length (flat_map columns (map f l)) = List.length l.
Proof.
  intros W. induction l as [|a l IH]; cbn [map flat_map List.length];
    [reflexivity|].
  rewrite length_app, W, IH. reflexivity.
Qed.

(** The frames [PI_Call] collects under 'summary', in the two files. *)
Lemma PI_Call_summary_eq uo pn search start end_ interval csvFile summaryType
  kind point rest :
  PI_Data.search_all search (map fst csvFile) = point :: rest ->
  summary_kind summaryType = Some kind ->
  PI_Data.PI_Call uo pn search start end_ interval csvFile "summary"
    summaryType
  = if Nat.eqb (List.length csvFile) (S (List.length rest))
    then ret (Some
      {| columns := map snd csvFile;
         rows :=
           map (fun t =>
                  (wall_clock uo (Some zone) t,
                   map (summary_cell pn)
                     (flat_map (fun d => row_at d t)
                        (summary_frames start end_ interval kind
                           (point :: rest)))))
               (union_index
                  (summary_frames start end_ interval kind (point :: rest)));
         tz := None |})
    else raise (ValueError "Length mismatch").
Proof.
  intros P K. unfold PI_Data.PI_Call.
  rewrite (search_all_csv search csvFile point rest P), bind_ret.
  cbn [fst snd]. rewrite P, (loop_summary _ _ _ _ kind _ _ K), bind_ret.
  cbn [app]. fold (summary_frames start end_ interval kind (point :: rest)).
  set (frames := summary_frames start end_ interval kind (point :: rest)).
  assert (F : pd_concat frames
              = ret {| columns := flat_map columns frames;
                       rows := map (fun t => (t, flat_map (fun d => row_at d t)
                                                   frames))
                                   (union_index frames);
                       tz := Some DEFAULT_TIMEZONE |}) by reflexivity.
  rewrite F, bind_ret.
  rewrite (run_post_summary uo pn _ _ DEFAULT_TIMEZONE) by reflexivity.
  cbn [columns rows]. unfold frames at 1, summary_frames at 1.
  rewrite length_columns_frames by reflexivity.
  rewrite length_map. cbn [List.length].
  destruct (Nat.eqb (List.length csvFile) (S (List.length rest)));
    [|reflexivity].
  rewrite bind_ret, map_map. reflexivity.
Qed.

Lemma PI_Call_summary_extraction_eq uo pn search start end_ interval csvFile
  summaryType kind point rest :
  PI_Data_Extraction.search_all search (map fst csvFile) = point :: rest ->
  summary_kind summaryType = Some kind ->
  PI_Data_Extraction.PI_Call uo pn search start end_ interval csvFile
    "summary" summaryType
  = if Nat.eqb (List.length csvFile) (S (List.length rest))
    then ret (Some
      {| columns := map snd csvFile;
         rows :=
           map (fun t =>
                  (wall_clock uo (Some zone) t,
                   flat_map (fun d => row_at d t)
                     (tagged_frames start end_ interval kind (point :: rest))))
               (union_index
                  (tagged_frames start end_ interval kind (point :: rest)));
         tz := None |})
    else raise (ValueError "Length mismatch").
Proof.
  intros P K. unfold PI_Data_Extraction.PI_Call.
  rewrite (search_all_csv search csvFile point rest P), bind_ret.
  cbn [fst snd]. rewrite P, (loop_summary_extraction _ _ _ _ kind _ _ K).
  rewrite bind_ret. cbn [app].
  fold (tagged_frames start end_ interval kind (point :: rest)).
  set (frames := tagged_frames start end_ interval kind (point :: rest)).
  assert (F : pd_concat frames
              = ret {| columns := flat_map columns frames;
                       rows := map (fun t => (t, flat_map (fun d => row_at d t)
                                                   frames))
                                   (union_index frames);
                       tz := Some DEFAULT_TIMEZONE |}) by reflexivity.
  rewrite F, bind_ret.
  rewrite (run_post_extraction uo pn _ _ DEFAULT_TIMEZONE) by reflexivity.
  cbn [columns rows]. unfold frames at 1, tagged_frames at 1.
  rewrite length_columns_frames by reflexivity.
  rewrite length_map. cbn [List.length].
  destruct (Nat.eqb (List.length csvFile) (S (List.length rest)));
    [|reflexivity].
  rewrite bind_ret, map_map. reflexivity.
Qed.

(** ** Variable names are assigned by position *)




(** ** The outer join *)

Lemma insert_In (t x : Z) (l : list Z) :
  In x (insert t l) <-> x = t \/ In x l.
Proof.
  induction l as [|y l IH]; cbn [insert In].
  - intuition.
  - destruct (Z.ltb_spec t y); cbn [In]; [intuition|].
    destruct (Z.eqb_spec t y) as [->|D]; cbn [In]; [intuition|].
    rewrite IH. intuition.
Qed.

Lemma insert_sorted (t : Z) (l : list Z) :
  StronglySorted Z.lt l -> StronglySorted Z.lt (insert t l).
Proof.
  induction 1 as [|y l S IH F]; cbn [insert].
  - repeat constructor.
  - destruct (Z.ltb_spec t y) as [L|G].
    + constructor; [now constructor|]. constructor; [exact L|].
      eapply Forall_impl; [|exact F]. intros z Hz. cbv beta in Hz. lia.
    + destruct (Z.eqb_spec t y) as [->|D]; [now constructor|].
      constructor; [exact IH|].
      apply Forall_forall. intros z Hz. apply insert_In in Hz.
      destruct Hz as [->|Hz]; [lia|].
      rewrite Forall_forall in F. now apply F.
Qed.

Lemma union_index_In (dfs : list DataFrame) (t : Z) :
  In t (union_index dfs) <-> exists d, In d dfs /\ In t (index d).
Proof.
  unfold union_index. rewrite <- in_flat_map.
  induction (flat_map index dfs) as [|x l IH]; cbn [fold_right In].
  - tauto.
  - rewrite insert_In, IH. intuition.
Qed.

Lemma union_index_sorted (dfs : list DataFrame) :
  StronglySorted Z.lt (union_index dfs).
Proof.
  unfold union_index.
  induction (flat_map index dfs) as [|x l IH]; cbn [fold_right].
  - constructor.
  - now apply insert_sorted.
Qed.

Lemma value_at_absent (samples : list (Z * cell)) (t : Z) :
  ~ In t (map fst samples) -> value_at samples t = NaN.
Proof.
  intros N. unfold value_at.
  destruct (find (fun s => fst s =? t) samples) as [s|] eqn:F; [|reflexivity].
  apply find_some in F. destruct F as [I E]. apply Z.eqb_eq in E.
  exfalso. apply N. rewrite <- E. now apply in_map.
Qed.

Lemma value_at_present (samples : list (Z * cell)) (t : Z) (v : cell) :
  StronglySorted Z.lt (map fst samples) ->
  In (t, v) samples -> value_at samples t = v.
Proof.
  unfold value_at.
  induction samples as [|[u w] l IH]; cbn [map fst find In]; intros S I;
    [contradiction|].
  inversion S as [|? ? S' F]; subst.
  destruct (Z.eqb_spec u t) as [->|D].
  - destruct I as [E|I]; [now inversion E|].
    rewrite Forall_forall in F. apply (in_map fst) in I.
    specialize (F _ I). cbn [fst] in F. lia.
  - destruct I as [E|I]; [inversion E; contradiction|]. now apply IH.
Qed.

Lemma row_at_series (name : string) (samples : list (Z * cell)) (t : Z) :
  row_at (series name samples) t = [value_at samples t].
Proof.
  unfold row_at, value_at, series; cbn [rows columns List.length repeat].
  induction samples as [|[u w] l IH]; cbn [map find fst snd]; [reflexivity|].
  destruct (u =? t); [reflexivity|exact IH].
Qed.

Lemma row_at_frames (start end_ interval : string) (kind : SummaryType)
  (points : list PIPoint) (t : Z) :
  flat_map (fun d => row_at d t) (summary_frames start end_ interval kind points)
  = map (fun p => value_at (summary p start end_ interval kind) t) points
  /\ flat_map (fun d => row_at d t)
       (tagged_frames start end_ interval kind points)
     = map (fun p => value_at (summary p start end_ interval kind) t) points.
Proof.
  unfold summary_frames, tagged_frames.
  split; induction points as [|p ps IH]; cbn [map flat_map];
    try reflexivity; rewrite IH; f_equal;
    [change (row_at (rename [("AVERAGE", tag p)]
                       (summaries p start end_ interval kind)) t)
       with (row_at (series (SummaryType_name kind)
                       (summary p start end_ interval kind)) t)|];
    now rewrite row_at_series.
Qed.

Lemma index_frames (start end_ interval : string) (kind : SummaryType)
  (points : list PIPoint) (t : Z) :
  ((exists d, In d (summary_frames start end_ interval kind points)
              /\ In t (index d))
   <-> exists p, In p points
                 /\ In t (map fst (summary p start end_ interval kind)))
  /\ ((exists d, In d (tagged_frames start end_ interval kind points)
                 /\ In t (index d))
      <-> exists p, In p points
                    /\ In t (map fst (summary p start end_ interval kind))).
Proof.
  unfold summary_frames, tagged_frames.
  split; split.
  - intros (d & I & T). apply in_map_iff in I. destruct I as (p & <- & I).
    exists p. split; [exact I|].
    unfold index, rename, summaries, series in T; cbn [rows] in T.
    now rewrite map_map in T.
  - intros (p & I & T). eexists. split; [apply in_map; exact I|].
    unfold index, rename, summaries, series; cbn [rows]. now rewrite map_map.
  - intros (d & I & T). apply in_map_iff in I. destruct I as (p & <- & I).
    exists p. split; [exact I|].
    unfold index, series in T; cbn [rows] in T. now rewrite map_map in T.
  - intros (p & I & T). eexists. split; [apply in_map; exact I|].
    unfold index, series; cbn [rows]. now rewrite map_map.
Qed.

Lemma union_index_frames (start end_ interval : string) (kind : SummaryType)
  (points : list PIPoint) :
  union_index (tagged_frames start end_ interval kind points)
  = union_index (summary_frames start end_ interval kind points).
Proof.
  unfold union_index. f_equal. unfold tagged_frames, summary_frames.
  induction points as [|p ps IH]; cbn [map flat_map]; [reflexivity|].
  now rewrite IH.
Qed.

(** C2, as the code has it.  [PI_Call] under 'summary', in both files, when
    the search finds as many points as the csv has rows and each series is
    in chronological order: the call returns a table with one row per
    instant present in some series, the rows in the chronological order of
    the instants and no instant twice; the index shows each instant as its
    wall-clock label of the fixed zone, so the labels themselves are the
    image of an increasing sequence, not an increasing sequence; at the row
    of an instant that a series lacks, the column of that series holds the
    missing-value marker, and where the series has a sample the column holds
    that sample ([PI_Data.py] then coerces and scrubs it). *)
Theorem outer_join uo pn search start end_ interval csvFile summaryType kind
  point rest :
  PI_Data.search_all search (map fst csvFile) = point :: rest ->
  summary_kind summaryType = Some kind ->
  List.length csvFile = S (List.length rest) ->
  (forall p, In p (point :: rest) ->
     StronglySorted Z.lt (map fst (summary p start end_ interval kind))) ->
  exists table table' instants,
    PI_Data.PI_Call uo pn search start end_ interval csvFile "summary"
      summaryType = ret (Some table)
    /\ PI_Data_Extraction.PI_Call uo pn search start end_ interval csvFile
         "summary" summaryType = ret (Some table')
    /\ StronglySorted Z.lt instants
    /\ (forall t, In t instants
                  <-> exists p, In p (point :: rest)
                        /\ In t (map fst (summary p start end_ interval kind)))
    /\ index table = map (wall_clock uo (Some zone)) instants
    /\ index table' = map (wall_clock uo (Some zone)) instants
    /\ forall k t i p,
         nth_error instants k = Some t ->
         nth_error (point :: rest) i = Some p ->
         (~ In t (map fst (summary p start end_ interval kind)) ->
          iat table k i = Some NaN /\ iat table' k i = Some NaN)
         /\ (forall v,
               In (t, v) (summary p start end_ interval kind) ->
               iat table k i = Some (summary_cell pn v)
               /\ iat table' k i = Some v).
Proof.
  intros P K L C.
  rewrite (PI_Call_summary_eq uo pn search start end_ interval csvFile
             summaryType kind point rest P K).
  rewrite (PI_Call_summary_extraction_eq uo pn search start end_ interval csvFile
             summaryType kind point rest P K).
  apply Nat.eqb_eq in L. rewrite L, union_index_frames.
  set (points := point :: rest) in *.
  set (instants := union_index (summary_frames start end_ interval kind points)).
  do 2 eexists. exists instants.
  split; [reflexivity|]. split; [reflexivity|].
  split; [apply union_index_sorted|].
  split.
  { intros t. unfold instants. rewrite union_index_In.
    apply (proj1 (index_frames start end_ interval kind points t)). }
  split; [unfold index; cbn [rows]; now rewrite map_map|].
  split; [unfold index; cbn [rows]; now rewrite map_map|].
  intros k t i p Hk Hi.
  assert (T : iat {| columns := map snd csvFile;
                     rows := map (fun t0 =>
                       (wall_clock uo (Some zone) t0,
                        map (summary_cell pn)
                          (flat_map (fun d => row_at d t0)
                             (summary_frames start end_ interval kind points))))
                       instants;
                     tz := None |} k i
              = Some (summary_cell pn
                        (value_at (summary p start end_ interval kind) t))).
  { unfold iat; cbn [rows]. rewrite nth_error_map, Hk. cbn [option_map snd].
    rewrite (proj1 (row_at_frames start end_ interval kind points t)).
    now rewrite !nth_error_map, Hi. }
  assert (T' : iat {| columns := map snd csvFile;
                      rows := map (fun t0 =>
                        (wall_clock uo (Some zone) t0,
                         flat_map (fun d => row_at d t0)
                           (tagged_frames start end_ interval kind points)))
                        instants;
                      tz := None |} k i
               = Some (value_at (summary p start end_ interval kind) t)).
  { unfold iat; cbn [rows]. rewrite nth_error_map, Hk. cbn [option_map snd].
    rewrite (proj2 (row_at_frames start end_ interval kind points t)).
    now rewrite nth_error_map, Hi. }
  rewrite T, T'. split.
  - intros N. now rewrite value_at_absent.
  - intros v I. rewrite (value_at_present _ t v); [now split| |exact I].
    apply C. eapply nth_error_In. exact Hi.
Qed.

Lemma outer_join_witness :
  exists table table' instants,
    PI_Data.PI_Call pacific_offset parse_decimal
      (server_of [flow_meter; power_meter]) "1/1/2020  7:30:00"
      "2/1/2021  11:47:00" "60s"
      [("P1-FIC-11-024/PV.CV", "P1-Flow"); ("P1-KW-11-024/PV.CV", "P1-kW")]
      "summary" "average" = ret (Some table)
    /\ PI_Data_Extraction.PI_Call pacific_offset parse_decimal
         (server_of [flow_meter; power_meter]) "1/1/2020  7:30:00"
         "2/1/2021  11:47:00" "60s"
         [("P1-FIC-11-024/PV.CV", "P1-Flow"); ("P1-KW-11-024/PV.CV", "P1-kW")]
         "summary" "average" = ret (Some table')
    /\ StronglySorted Z.lt instants
    /\ index table = map (wall_clock pacific_offset (Some zone)) instants.
Proof.
  destruct (outer_join pacific_offset parse_decimal
              (server_of [flow_meter; power_meter]) "1/1/2020  7:30:00"
              "2/1/2021  11:47:00" "60s"
              [("P1-FIC-11-024/PV.CV", "P1-Flow");
               ("P1-KW-11-024/PV.CV", "P1-kW")]
              "average" AVERAGE flow_meter [power_meter] eq_refl eq_refl
              eq_refl)
    as (table & table' & instants & E & E' & S & _ & I & _).
  - intros p [<-|[<-|[]]]; cbn; repeat constructor; lia.
  - exists table, table', instants. repeat split; assumption.
Defined.

(** The table of that call: the union of the two indexes, and the
    missing-value marker where the flow meter has no sample and where the
    power meter gave the sentinel. *)
Example outer_join_meters :
  PI_Data.PI_Call pacific_offset parse_decimal
    (server_of [flow_meter; power_meter]) "1/1/2020  7:30:00"
    "2/1/2021  11:47:00" "60s"
    [("P1-FIC-11-024/PV.CV", "P1-Flow"); ("P1-KW-11-024/PV.CV", "P1-kW")]
    "summary" "average"
  = ret (Some {| columns := ["P1-Flow"; "P1-kW"];
                 rows := [(1659312000, [Num 5; Num 40]);
                          (1659312300, [NaN; NaN]);
                          (1659312600, [Num 7; Num 41])];
                 tz := None |}).
Proof. reflexivity. Qed.

(** C2, as stated, fails: two chronological series across the return to
    standard time.  The table has the four rows of the union of the
    instants, but its index reads 01:00, 01:30, 01:00, 01:30: it is neither
    sorted nor free of repetition, and it is not the sorted union of the
    series' timestamps. *)
Lemma naive_index_not_sorted :
  StronglySorted Z.lt
    (map fst (summary meter_on_the_hour "2022-11-06 01:00:00"
                "2022-11-06 02:00:00" "1h" AVERAGE))
  /\ StronglySorted Z.lt
       (map fst (summary meter_on_the_half_hour "2022-11-06 01:00:00"
                   "2022-11-06 02:00:00" "1h" AVERAGE))
  /\ exists table,
       PI_Data.PI_Call pacific_offset parse_decimal
         (server_of [meter_on_the_hour; meter_on_the_half_hour])
         "2022-11-06 01:00:00" "2022-11-06 02:00:00" "1h"
         [("P1-FIC-11-024/PV.CV", "P1-Flow"); ("P1-KW-11-024/PV.CV", "P1-kW")]
         "summary" "average" = ret (Some table)
       /\ PI_Data_Extraction.PI_Call pacific_offset parse_decimal
            (server_of [meter_on_the_hour; meter_on_the_half_hour])
            "2022-11-06 01:00:00" "2022-11-06 02:00:00" "1h"
            [("P1-FIC-11-024/PV.CV", "P1-Flow"); ("P1-KW-11-024/PV.CV", "P1-kW")]
            "summary" "average"
          = ret (Some {| columns := columns table;
                         rows := [(1667696400, [Num 5; NaN]);
                                  (1667698200, [NaN; Num 40]);
                                  (1667696400, [Num 7; NaN]);
                                  (1667698200, [NaN; Num 41])];
                         tz := None |})
       /\ index table = [1667696400; 1667698200; 1667696400; 1667698200]
       /\ ~ StronglySorted Z.lt (index table)
       /\ ~ NoDup (index table)
       /\ index table
          <> fold_right insert []
               [1667721600; 1667725200; 1667723400; 1667727000].
Proof.
  split; [cbn; repeat constructor; lia|].
  split; [cbn; repeat constructor; lia|].
  eexists. split; [reflexivity|]. split; [reflexivity|].
  split; [reflexivity|]. split; [|split].
  - intros S. apply StronglySorted_inv in S. destruct S as [_ F].
    inversion F as [|? ? _ F']. inversion F' as [|? ? L _].
    cbn in L. lia.
  - intros N. inversion N as [|? ? I _]. apply I. cbn. auto.
  - intros E. discriminate E.
Qed.

(** ** The order of coercion and scrub *)

Lemma coerce_scrub_cell pn (c : cell) :
  pn sentinel = None ->
  replace_cell [(sentinel, NaN)] (to_numeric pn c)
  = to_numeric pn (replace_cell [(sentinel, NaN)] c).
Proof.
  intros U. destruct c as [z|s|]; cbn [to_numeric replace_cell];
    try reflexivity.
  destruct (String.eqb_spec s sentinel) as [->|D].
  - now rewrite U.
  - cbn [to_numeric]. now destruct (pn s).
Qed.

Lemma coerce_scrub_swap uo pn (df : DataFrame) :
  pn sentinel = None ->
  run uo pn [op_apply_to_numeric; op_replace [(sentinel, NaN)]] df
  = run uo pn [op_replace [(sentinel, NaN)]; op_apply_to_numeric] df.
Proof.
  intros U. cbn [run exec]. rewrite !bind_ret. unfold replace.
  rewrite !map_cells_map_cells.
  rewrite (map_cells_ext _
             (fun c => to_numeric pn (replace_cell [(sentinel, NaN)] c)));
    [reflexivity|].
  intros c. now apply coerce_scrub_cell.
Qed.

(** C7, as the code has it.  In both modes, [PI_Call] and [PI_Call_Tag] of
    [PI_Data.py] apply the numeric coercion first and the sentinel scrub
    after it.  With a parser that rejects the sentinel string, as that of
    pandas does, the two statements commute on every frame, so the table is
    the one the scrub-first order would give. *)
Theorem coercion_then_scrub uo pn query var_name var_names dataType :
  pn sentinel = None ->
  runs_before is_coercion is_scrub
    (PI_Data.PI_Call_Tag_post query var_name dataType)
  /\ runs_before is_coercion is_scrub (PI_Data.PI_Call_post dataType var_names)
  /\ (forall df,
        run uo pn [op_apply_to_numeric; op_replace [(sentinel, NaN)]] df
        = run uo pn [op_replace [(sentinel, NaN)]; op_apply_to_numeric] df)
  /\ (forall df,
        run uo pn (PI_Data.PI_Call_Tag_post query var_name dataType) df
        = run uo pn (PI_Call_Tag_post_scrub_first query var_name dataType) df).
Proof.
  intros U. split; [|split; [|split]].
  - unfold PI_Data.PI_Call_Tag_post.
    destruct (String.eqb dataType "sampled");
      [exists 6%nat, 7%nat|exists 0%nat, 1%nat]; repeat split; lia.
  - unfold PI_Data.PI_Call_post.
    destruct (String.eqb dataType "sampled");
      [exists 8%nat, 9%nat|exists 2%nat, 3%nat]; repeat split; lia.
  - intros df. now apply coerce_scrub_swap.
  - intros df. unfold PI_Data.PI_Call_Tag_post, PI_Call_Tag_post_scrub_first.
    rewrite !run_app.
    match goal with
    | |- bind ?m _ = _ => destruct m as [out [e|d]]
    end; cbn [bind]; [reflexivity|].
    now rewrite coerce_scrub_swap.
Qed.

Lemma coercion_then_scrub_witness :
  runs_before is_coercion is_scrub
    (PI_Data.PI_Call_Tag_post "SSPP-P-200/RUN.CV" "P200_ON" "sampled")
  /\ run pacific_offset parse_decimal
       (PI_Data.PI_Call_Tag_post "SSPP-P-200/RUN.CV" "P200_ON" "sampled")
       (interpolated_values pump "2022-08-01 00:00:00" "2022-09-01 00:00:00"
          "5m")
     = run pacific_offset parse_decimal
         (PI_Call_Tag_post_scrub_first "SSPP-P-200/RUN.CV" "P200_ON" "sampled")
         (interpolated_values pump "2022-08-01 00:00:00" "2022-09-01 00:00:00"
            "5m").
Proof.
  destruct (coercion_then_scrub pacific_offset parse_decimal
              "SSPP-P-200/RUN.CV" "P200_ON" ["P200_ON"] "sampled" eq_refl)
    as (B & _ & _ & R).
  split; [exact B|apply R].
Defined.

(** C7, as stated, fails: in neither mode does the scrub come before the
    coercion, in [PI_Call_Tag] as in [PI_Call]. *)
Lemma scrub_not_before_coercion :
  ~ runs_before is_scrub is_coercion
      (PI_Data.PI_Call_Tag_post "SSPP-P-200/RUN.CV" "P200_ON" "sampled")
  /\ ~ runs_before is_scrub is_coercion
         (PI_Data.PI_Call_Tag_post "SSPP-P-200/RUN.CV" "P200_ON" "summary")
  /\ ~ runs_before is_scrub is_coercion
         (PI_Data.PI_Call_post "sampled" ["P200_ON"])
  /\ ~ runs_before is_scrub is_coercion
         (PI_Data.PI_Call_post "summary" ["P200_ON"]).
Proof.
  repeat split; intros (i & j & Hi & Hj & L); vm_compute in Hi, Hj;
    inversion Hi; inversion Hj; subst; lia.
Qed.

(** * Further properties of the four functions *)

(** ** The outcomes of [PI_Call], case by case *)

Lemma summary_kind_Some (summaryType : string) :
  In summaryType summary_types -> exists kind, summary_kind summaryType = Some kind.
Proof.
  unfold summary_types. cbn [In].
  intros [<-|[<-|[<-|[<-|[<-|[<-|[<-|[]]]]]]]]; eexists; reflexivity.
Qed.

Lemma summary_kind_accepts (summaryType : string) :
  summary_kind summaryType <> None <-> In summaryType summary_types.
Proof.
  split.
  - unfold summary_kind, summary_types.
    repeat match goal with
           | |- context [String.eqb summaryType ?k] =>
               destruct (String.eqb_spec summaryType k) as [->|_];
               [intros _; cbn [In]; auto 10|]
           end.
    intros N. exfalso. now apply N.
  - intros I. destruct (summary_kind_Some summaryType I) as [k ->]. discriminate.
Qed.

Lemma other_mode (dataType : string) :
  dataType <> "sampled" -> dataType <> "summary" ->
  ~ In dataType ["summary"; "sampled"].
Proof. intros A B [H|[H|[]]]; congruence. Qed.

Lemma PI_Call_table uo pn search start end_ interval csvFile dataType
  summaryType :
  PI_Data.PI_Call uo pn search start end_ interval csvFile dataType summaryType
  = match csvFile with
    | [] => raise (ValueError "not enough values to unpack (expected 2, got 0)")
    | _ =>
        match PI_Data.search_all search (map fst csvFile) with
        | [] => raise (ValueError "No objects to concatenate")
        | point :: rest =>
            if String.eqb dataType "sampled"
            then raise (ValueError "No objects to concatenate")
            else if String.eqb dataType "summary"
            then match summary_kind summaryType with
                 | Some kind =>
                     if Nat.eqb (List.length csvFile) (S (List.length rest))
                     then ret (Some
                       {| columns := map snd csvFile;
                          rows :=
                            map (fun t =>
                                   (wall_clock uo (Some zone) t,
                                    map (summary_cell pn)
                                      (flat_map (fun d => row_at d t)
                                         (summary_frames start end_ interval
                                            kind (point :: rest)))))
                                (union_index
                                   (summary_frames start end_ interval kind
                                      (point :: rest)));
                          tz := None |})
                     else raise (ValueError "Length mismatch")
                 | None => (["ERROR: Summary type not valid."], inr None)
                 end
            else (["ERROR: Data type not valid."], inr None)
        end
    end.
Proof.
  destruct csvFile as [|row csv]; [reflexivity|].
  set (csvFile := row :: csv).
  destruct (PI_Data.search_all search (map fst csvFile)) as [|point rest] eqn:P.
  - unfold PI_Data.PI_Call. cbn [read_tags csvFile]. rewrite bind_ret.
    cbn [fst snd]. fold csvFile. rewrite P. reflexivity.
  - pose proof (search_all_csv search csvFile point rest P) as R.
    destruct (String.eqb_spec dataType "sampled") as [->|NS].
    { unfold PI_Data.PI_Call. rewrite R, bind_ret. cbn [fst snd].
      rewrite (proj1 (loop_sampled _ _ _ _ _ _)), bind_ret. reflexivity. }
    destruct (String.eqb_spec dataType "summary") as [->|NM].
    + destruct (summary_kind summaryType) as [kind|] eqn:K.
      * exact (PI_Call_summary_eq uo pn search start end_ interval csvFile
                 summaryType kind point rest P K).
      * unfold PI_Data.PI_Call. rewrite R, bind_ret. cbn [fst snd]. rewrite P.
        rewrite (proj1 (loop_invalid_kind start end_ interval summaryType
                          point rest [] K)).
        reflexivity.
    + unfold PI_Data.PI_Call. rewrite R, bind_ret. cbn [fst snd]. rewrite P.
      rewrite (proj1 (loop_invalid_mode start end_ interval dataType
                        summaryType point rest [] (other_mode _ NS NM))).
      reflexivity.
Qed.

Lemma PI_Call_extraction_table uo pn search start end_ interval csvFile
  dataType summaryType :
  PI_Data_Extraction.PI_Call uo pn search start end_ interval csvFile dataType
    summaryType
  = match csvFile with
    | [] => raise (ValueError "not enough values to unpack (expected 2, got 0)")
    | _ =>
        match PI_Data.search_all search (map fst csvFile) with
        | [] => raise (ValueError "No objects to concatenate")
        | point :: rest =>
            if String.eqb dataType "sampled"
            then raise (ValueError "No objects to concatenate")
            else if String.eqb dataType "summary"
            then match summary_kind summaryType with
                 | Some kind =>
                     if Nat.eqb (List.length csvFile) (S (List.length rest))
                     then ret (Some
                       {| columns := map snd csvFile;
                          rows :=
                            map (fun t =>
                                   (wall_clock uo (Some zone) t,
                                    flat_map (fun d => row_at d t)
                                      (tagged_frames start end_ interval kind
                                         (point :: rest))))
                                (union_index
                                   (tagged_frames start end_ interval kind
                                      (point :: rest)));
                          tz := None |})
                     else raise (ValueError "Length mismatch")
                 | None => (["ERROR: Summary type not valid."], inr None)
                 end
            else (["ERROR: Data type not valid."], inr None)
        end
    end.
Proof.
  destruct csvFile as [|row csv]; [reflexivity|].
  set (csvFile := row :: csv).
  destruct (PI_Data.search_all search (map fst csvFile)) as [|point rest] eqn:P.
  - unfold PI_Data_Extraction.PI_Call. cbn [read_tags csvFile].
    rewrite bind_ret. cbn [fst snd]. fold csvFile.
    change (PI_Data_Extraction.search_all search (map fst csvFile))
      with (PI_Data.search_all search (map fst csvFile)).
    rewrite P. reflexivity.
  - pose proof (search_all_csv search csvFile point rest P) as R.
    assert (P' : PI_Data_Extraction.search_all search (map fst csvFile)
                 = point :: rest) by exact P.
    destruct (String.eqb_spec dataType "sampled") as [->|NS].
    { unfold PI_Data_Extraction.PI_Call. rewrite R, bind_ret. cbn [fst snd].
      rewrite (proj2 (loop_sampled _ _ _ _ _ _)), bind_ret. reflexivity. }
    destruct (String.eqb_spec dataType "summary") as [->|NM].
    + destruct (summary_kind summaryType) as [kind|] eqn:K.
      * exact (PI_Call_summary_extraction_eq uo pn search start end_ interval
                 csvFile summaryType kind point rest P' K).
      * unfold PI_Data_Extraction.PI_Call. rewrite R, bind_ret.
        cbn [fst snd]. rewrite P'.
        rewrite (proj2 (loop_invalid_kind start end_ interval summaryType
                          point rest [] K)).
        reflexivity.
    + unfold PI_Data_Extraction.PI_Call. rewrite R, bind_ret. cbn [fst snd].
      rewrite P'.
      rewrite (proj2 (loop_invalid_mode start end_ interval dataType
                        summaryType point rest [] (other_mode _ NS NM))).
      reflexivity.
Qed.

(** X1. [PI_Call] of [PI_Data.py] is [PI_Call] of [PI-Data-Extraction.py]
    followed by the numeric coercion and the scrub of every cell: for every
    csv file, historian, mode and summary kind the two calls print the same
    lines and raise the same exception, and when one returns a table the
    other returns the same columns and index with each cell coerced and
    scrubbed. *)
Theorem PI_Call_files_agree uo pn search start end_ interval csvFile dataType
  summaryType :
  PI_Data.PI_Call uo pn search start end_ interval csvFile dataType summaryType
  = (r <- PI_Data_Extraction.PI_Call uo pn search start end_ interval csvFile
            dataType summaryType ;;
     ret (option_map (map_cells (summary_cell pn)) r)).
Proof.
  rewrite PI_Call_table, PI_Call_extraction_table.
  destruct csvFile as [|row csv]; [reflexivity|].
  destruct (PI_Data.search_all search (map fst (row :: csv)))
    as [|point rest]; [reflexivity|].
  destruct (String.eqb dataType "sampled"); [reflexivity|].
  destruct (String.eqb dataType "summary"); [|reflexivity].
  destruct (summary_kind summaryType) as [kind|]; [|reflexivity].
  destruct (Nat.eqb (List.length (row :: csv)) (S (List.length rest)));
    [|reflexivity].
  rewrite bind_ret. cbn [option_map]. unfold map_cells; cbn [columns rows tz].
  rewrite union_index_frames, map_map. unfold ret. do 4 f_equal.
  apply map_ext. intros t. cbn [fst snd].
  rewrite (proj1 (row_at_frames start end_ interval kind (point :: rest) t)).
  now rewrite (proj2 (row_at_frames start end_ interval kind (point :: rest) t)).
Qed.

Ltac no_table :=
  let t := fresh "t" in let H := fresh "H" in
  intros [t H]; discriminate H.

Ltac returns_iff_cases search csvFile dataType summaryType :=
  destruct csvFile as [|row csv];
  [split; [no_table|intros (_ & _ & N & _); now contradiction N]|];
  destruct (PI_Data.search_all search (map fst (row :: csv)))
    as [|point rest] eqn:P;
  [split; [no_table|intros (_ & _ & _ & L); discriminate L]|];
  destruct (String.eqb_spec dataType "sampled") as [->|NS];
  [split; [no_table|intros (D & _); discriminate D]|];
  destruct (String.eqb_spec dataType "summary") as [->|NM];
  [|split; [no_table|intros (D & _); contradiction]];
  destruct (summary_kind summaryType) as [kind|] eqn:K;
  [|split; [no_table
           |intros (_ & I & _); apply summary_kind_accepts in I;
            contradiction]];
  destruct (Nat.eqb_spec (List.length (row :: csv)) (S (List.length rest)))
    as [L|L];
  [|split; [no_table|intros (_ & _ & _ & L'); cbn [List.length] in L, L'; lia]];
  split;
  [intros _; repeat split;
   [apply summary_kind_accepts; rewrite K; discriminate
   |discriminate
   |cbn [List.length] in *; lia]
  |intros _; eexists; reflexivity].

(** X2. [PI_Call], in both files, returns a table exactly when dataType is
    'summary', summaryType is one of the seven supported kinds, the csv file
    has at least one row and the search finds as many points as the file has
    rows; in no other case does it return a table. *)
Theorem PI_Call_returns_iff uo pn search start end_ interval csvFile dataType
  summaryType :
  (returns_table
     (PI_Data.PI_Call uo pn search start end_ interval csvFile dataType
        summaryType)
   <-> dataType = "summary" /\ In summaryType summary_types
       /\ csvFile <> []
       /\ List.length (PI_Data.search_all search (map fst csvFile))
          = List.length csvFile)
  /\ (returns_table
        (PI_Data_Extraction.PI_Call uo pn search start end_ interval csvFile
           dataType summaryType)
      <-> dataType = "summary" /\ In summaryType summary_types
          /\ csvFile <> []
          /\ List.length (PI_Data.search_all search (map fst csvFile))
             = List.length csvFile).
Proof.
  unfold returns_table. rewrite PI_Call_table, PI_Call_extraction_table.
  split; returns_iff_cases search csvFile dataType summaryType.
Qed.

(** X3. When the search finds no point for any row of the csv file, [PI_Call]
    raises ValueError in both files, whatever the mode and the summary kind:
    nothing is printed, and an unsupported mode goes unreported. *)
Theorem PI_Call_no_point uo pn search start end_ interval csvFile dataType
  summaryType :
  PI_Data.search_all search (map fst csvFile) = [] ->
  exists msg,
    PI_Data.PI_Call uo pn search start end_ interval csvFile dataType
      summaryType = raise (ValueError msg)
    /\ PI_Data_Extraction.PI_Call uo pn search start end_ interval csvFile
         dataType summaryType = raise (ValueError msg).
Proof.
  intros P. rewrite PI_Call_table, PI_Call_extraction_table, P.
  destruct csvFile; eexists; split; reflexivity.
Qed.

Lemma PI_Call_no_point_witness :
  exists msg,
    PI_Data.PI_Call pacific_offset parse_decimal (server_of [flow_meter])
      "1/1/2019" "1/1/2020" "10m" [("P9-FIC-11-024/PV.CV", "P9-Flow")]
      "summary" "average" = raise (ValueError msg).
Proof.
  destruct (PI_Call_no_point pacific_offset parse_decimal
              (server_of [flow_meter]) "1/1/2019" "1/1/2020" "10m"
              [("P9-FIC-11-024/PV.CV", "P9-Flow")] "summary" "average" eq_refl)
    as (msg & E & _).
  exists msg. exact E.
Defined.

(** ** The outcomes of [PI_Call_Tag], case by case *)

Lemma PI_Call_Tag_table uo pn search start end_ interval query var_name
  dataType summaryType :
  PI_Data.PI_Call_Tag uo pn search start end_ interval query var_name dataType
    summaryType
  = match search query with
    | [] => raise (IndexError "list index out of range")
    | point :: _ =>
        if String.eqb dataType "sampled"
        then ret (Some
               (map_cells (sampled_cell pn)
                  (drop_tail
                     (naive_series uo
                        (rename_label [(query, var_name)] (tag point))
                        (interpolated point start end_ interval)))))
        else if String.eqb dataType "summary"
        then match summary_kind summaryType with
             | Some kind =>
                 ret (Some
                   (map_cells (summary_cell pn)
                      (naive_series uo
                         (rename_label [("AVERAGE", var_name)]
                            (SummaryType_name kind))
                         (summary point start end_ interval kind))))
             | None => (["ERROR: Summary type not valid."], inr None)
             end
        else (["ERROR: Data type not valid."], inr None)
    end.
Proof.
  destruct (search query) as [|point rest] eqn:Q.
  - unfold PI_Data.PI_Call_Tag. now rewrite Q.
  - destruct (String.eqb_spec dataType "sampled") as [->|NS].
    { exact (PI_Call_Tag_sampled_eq uo pn search start end_ interval query
               var_name summaryType point rest Q). }
    destruct (String.eqb_spec dataType "summary") as [->|NM].
    + destruct (summary_kind summaryType) as [kind|] eqn:K.
      * exact (PI_Call_Tag_summary_eq uo pn search start end_ interval query
                 var_name summaryType kind point rest Q K).
      * unfold PI_Data.PI_Call_Tag. rewrite Q.
        change (String.eqb "summary" "sampled") with false.
        change (String.eqb "summary" "summary") with true. cbv iota.
        now rewrite K.
    + unfold PI_Data.PI_Call_Tag. rewrite Q.
      apply String.eqb_neq in NS, NM. now rewrite NS, NM.
Qed.

Lemma PI_Call_Tag_extraction_table uo pn search start end_ interval query
  var_name dataType summaryType :
  PI_Data_Extraction.PI_Call_Tag uo pn search start end_ interval query
    var_name dataType summaryType
  = match search query with
    | [] => raise (IndexError "list index out of range")
    | point :: _ =>
        if String.eqb dataType "sampled"
        then ret (Some (interpolated_values point start end_ interval))
        else if String.eqb dataType "summary"
        then match summary_kind summaryType with
             | Some kind =>
                 ret (Some (naive_series uo var_name
                              (summary point start end_ interval kind)))
             | None => (["ERROR: Summary type not valid."], inr None)
             end
        else (["ERROR: Data type not valid."], inr None)
    end.
Proof.
  unfold PI_Data_Extraction.PI_Call_Tag.
  destruct (search query) as [|point rest]; [reflexivity|].
  destruct (String.eqb dataType "sampled"); [reflexivity|].
  destruct (String.eqb dataType "summary"); [|reflexivity].
  destruct (summary_kind summaryType) as [kind|]; [|reflexivity].
  unfold PI_Data_Extraction.PI_Call_Tag_summary, summaries, series.
  cbn [run exec]. unfold set_columns; cbn [columns List.length Nat.eqb].
  rewrite !bind_ret. unfold tz_convert; cbn [tz]. rewrite !bind_ret.
  unfold tz_localize_none, naive_series; cbn [tz rows columns].
  now rewrite map_map.
Qed.

Ltac tag_returns_cases search query dataType summaryType :=
  destruct (search query) as [|point rest];
  [split; [no_table|intros (N & _); now contradiction N]|];
  destruct (String.eqb_spec dataType "sampled") as [->|NS];
  [split; [intros _; split; [discriminate|now left]
          |intros _; eexists; reflexivity]|];
  destruct (String.eqb_spec dataType "summary") as [->|NM];
  [|split; [no_table|intros (_ & [D|(D & _)]); contradiction]];
  destruct (summary_kind summaryType) as [kind|] eqn:K;
  [split; [intros _; split; [discriminate|right; split; [reflexivity|]];
           apply summary_kind_accepts; rewrite K; discriminate
          |intros _; eexists; reflexivity]
  |split; [no_table
          |intros (_ & [D|(_ & I)]); [discriminate D|];
           apply summary_kind_accepts in I; contradiction]].

(** X4. [PI_Call_Tag], in both files, returns a table exactly when the
    search finds at least one point and either dataType is 'sampled' or
    dataType is 'summary' with one of the seven supported kinds; with a point
    found and a supported mode it never raises. *)
Theorem PI_Call_Tag_returns_iff uo pn search start end_ interval query
  var_name dataType summaryType :
  (returns_table
     (PI_Data.PI_Call_Tag uo pn search start end_ interval query var_name
        dataType summaryType)
   <-> search query <> []
       /\ (dataType = "sampled"
           \/ (dataType = "summary" /\ In summaryType summary_types)))
  /\ (returns_table
        (PI_Data_Extraction.PI_Call_Tag uo pn search start end_ interval query
           var_name dataType summaryType)
      <-> search query <> []
          /\ (dataType = "sampled"
              \/ (dataType = "summary" /\ In summaryType summary_types))).
Proof.
  unfold returns_table.
  rewrite PI_Call_Tag_table, PI_Call_Tag_extraction_table.
  split; tag_returns_cases search query dataType summaryType.
Qed.

Ltac absurd_outcome :=
  match goal with
  | H : _ = _ |- _ => solve [discriminate H | cbn in H; discriminate H]
  end.

Ltac error_cases dataType summaryType :=
  destruct (String.eqb_spec dataType "sampled") as [->|NS];
  [repeat split; intros; absurd_outcome|];
  destruct (String.eqb_spec dataType "summary") as [->|NM];
  [destruct (summary_kind summaryType) as [kind|] eqn:K;
   [try destruct (Nat.eqb _ _); repeat split; intros; absurd_outcome
   |repeat split; intros; try absurd_outcome; try (now right);
    let I := fresh "I" in
    intros I; apply summary_kind_accepts in I; contradiction]
  |repeat split; intros; try absurd_outcome; try (now left);
   exact (other_mode dataType NS NM)].

(** X5. None of the four functions prints an error for a supported mode, and
    none returns nothing silently: the line 'ERROR: Data type not valid.' is
    printed only when dataType is neither 'summary' nor 'sampled', the line
    'ERROR: Summary type not valid.' only when dataType is 'summary' and
    summaryType is none of the seven kinds, and a call that ends with a bare
    return has printed one of the two lines. *)
Theorem errors_only_when_unsupported uo pn search start end_ interval csvFile
  query var_name dataType summaryType m :
  In m [PI_Data.PI_Call uo pn search start end_ interval csvFile dataType
          summaryType;
        PI_Data_Extraction.PI_Call uo pn search start end_ interval csvFile
          dataType summaryType;
        PI_Data.PI_Call_Tag uo pn search start end_ interval query var_name
          dataType summaryType;
        PI_Data_Extraction.PI_Call_Tag uo pn search start end_ interval query
          var_name dataType summaryType] ->
  (reports "ERROR: Data type not valid." m ->
   ~ In dataType ["summary"; "sampled"])
  /\ (reports "ERROR: Summary type not valid." m ->
      dataType = "summary" /\ ~ In summaryType summary_types)
  /\ (result m = inr None ->
      reports "ERROR: Data type not valid." m
      \/ reports "ERROR: Summary type not valid." m).
Proof.
  unfold reports, result. cbn [In]. intros [<-|[<-|[<-|[<-|[]]]]].
  - rewrite PI_Call_table.
    destruct csvFile as [|row csv];
      [repeat split; intros; absurd_outcome|].
    destruct (PI_Data.search_all search (map fst (row :: csv)));
      [repeat split; intros; absurd_outcome|].
    error_cases dataType summaryType.
  - rewrite PI_Call_extraction_table.
    destruct csvFile as [|row csv];
      [repeat split; intros; absurd_outcome|].
    destruct (PI_Data.search_all search (map fst (row :: csv)));
      [repeat split; intros; absurd_outcome|].
    error_cases dataType summaryType.
  - rewrite PI_Call_Tag_table.
    destruct (search query); [repeat split; intros; absurd_outcome|].
    error_cases dataType summaryType.
  - rewrite PI_Call_Tag_extraction_table.
    destruct (search query); [repeat split; intros; absurd_outcome|].
    error_cases dataType summaryType.
Qed.

Lemma errors_only_when_unsupported_witness :
  reports "ERROR: Data type not valid."
    (PI_Data.PI_Call pacific_offset parse_decimal (server_of [flow_meter])
       "1/1/2019" "1/1/2020" "10m" [("P1-FIC-11-024/PV.CV", "P1-Flow")] "raw"
       "average")
  /\ ~ In "raw" ["summary"; "sampled"].
Proof.
  split; [reflexivity|].
  exact (proj1 (errors_only_when_unsupported pacific_offset parse_decimal
                  (server_of [flow_meter]) "1/1/2019" "1/1/2020" "10m"
                  [("P1-FIC-11-024/PV.CV", "P1-Flow")] "P1-FIC-11-024/PV.CV"
                  "P1-Flow" "raw" "average" _ (or_introl eq_refl)) eq_refl).
Defined.

(** X6. When the search finds no point, [PI_Call_Tag] raises IndexError in
    both files, for every mode and summary kind, supported or not, and prints
    nothing. *)
Theorem PI_Call_Tag_no_point uo pn search start end_ interval query var_name
  dataType summaryType :
  search query = [] ->
  PI_Data.PI_Call_Tag uo pn search start end_ interval query var_name dataType
    summaryType = raise (IndexError "list index out of range")
  /\ PI_Data_Extraction.PI_Call_Tag uo pn search start end_ interval query
       var_name dataType summaryType
     = raise (IndexError "list index out of range").
Proof.
  intros Q. rewrite PI_Call_Tag_table, PI_Call_Tag_extraction_table, Q.
  split; reflexivity.
Qed.

Lemma PI_Call_Tag_no_point_witness :
  PI_Data.PI_Call_Tag pacific_offset parse_decimal (server_of [flow_meter])
    "1/1/2019" "1/1/2020" "10m" "SSPP-P-200/RUN.CV" "P200_ON" "raw" "mean"
  = raise (IndexError "list index out of range").
Proof.
  exact (proj1 (PI_Call_Tag_no_point pacific_offset parse_decimal
                  (server_of [flow_meter]) "1/1/2019" "1/1/2020" "10m"
                  "SSPP-P-200/RUN.CV" "P200_ON" "raw" "mean" eq_refl)).
Defined.

(** ** The column of the single-tag functions under 'sampled' *)

Lemma rename_label_one (k v c : string) :
  rename_label [(k, v)] c = if String.eqb k c then v else c.
Proof. unfold rename_label; cbn [lookup]. now destruct (String.eqb k c). Qed.

Lemma sampled_column_general uo pn search start end_ interval query var_name
  summaryType point rest :
  search query = point :: rest ->
  exists table,
    PI_Data.PI_Call_Tag uo pn search start end_ interval query var_name
      "sampled" summaryType = ret (Some table)
    /\ List.length (columns table) = 1%nat
    /\ (tag point = query -> columns table = [var_name]).
Proof.
  intros Q. eexists. split.
  - exact (PI_Call_Tag_sampled_eq uo pn search start end_ interval query
             var_name summaryType point rest Q).
  - cbn [columns map_cells drop_tail drop naive_series].
    rewrite rename_label_one. split; [reflexivity|].
    intros <-. now rewrite String.eqb_refl.
Qed.

(** X7. [PI_Call_Tag] of [PI_Data.py] under 'sampled' names its single
    column after the caller's variable only when the tag of the point found
    is, character for character, the query: for a query that the historian
    matches to a differently written tag (a wildcard, another case) the
    rename of line 197 is ignored and the column keeps the point's tag. *)
Theorem sampled_column uo pn search start end_ interval query var_name
  summaryType point rest :
  search query = point :: rest ->
  exists table,
    PI_Data.PI_Call_Tag uo pn search start end_ interval query var_name
      "sampled" summaryType = ret (Some table)
    /\ (tag point = query -> columns table = [var_name])
    /\ (tag point <> query -> columns table = [tag point]).
Proof.
  intros Q. eexists. split.
  - exact (PI_Call_Tag_sampled_eq uo pn search start end_ interval query
             var_name summaryType point rest Q).
  - cbn [columns map_cells drop_tail drop naive_series].
    rewrite rename_label_one. split.
    + intros <-. now rewrite String.eqb_refl.
    + intros D. destruct (String.eqb_spec query (tag point)) as [E|_];
        [now contradiction D|reflexivity].
Qed.

Lemma sampled_column_witness :
  exists table,
    PI_Data.PI_Call_Tag pacific_offset parse_decimal
      (server_of [pump; flow_meter]) "2022-08-01 00:00:00"
      "2022-09-01 00:00:00" "5m" "SSPP*" "P200_ON" "sampled" "average"
    = ret (Some table)
    /\ columns table = ["SSPP-P-200/RUN.CV"].
Proof.
  destruct (sampled_column pacific_offset parse_decimal
              (server_of [pump; flow_meter]) "2022-08-01 00:00:00"
              "2022-09-01 00:00:00" "5m" "SSPP*" "P200_ON" "average" pump []
              eq_refl) as (table & E & _ & C).
  exists table. split; [exact E|]. apply C. discriminate.
Defined.

(** X8. Importing [PI_Data.py] runs the extraction of line 206.  When the
    historian has no point for 'SSPP-P-200/RUN.CV' the import raises
    IndexError; otherwise [df] is bound to a table of one column, named
    P200_ON when the tag of the first point found is the query itself, and
    nothing is printed. *)
Theorem import_runs_extraction uo pn search :
  (search "SSPP-P-200/RUN.CV" = [] ->
   PI_Data_toplevel.df uo pn search
   = raise (IndexError "list index out of range"))
  /\ (forall point rest,
        search "SSPP-P-200/RUN.CV" = point :: rest ->
        exists table,
          PI_Data_toplevel.df uo pn search = ret (Some table)
          /\ List.length (columns table) = 1%nat
          /\ (tag point = "SSPP-P-200/RUN.CV" -> columns table = ["P200_ON"])).
Proof.
  unfold PI_Data_toplevel.df. split.
  - intros Q. now rewrite PI_Call_Tag_table, Q.
  - intros point rest Q.
    destruct (sampled_column_general uo pn search "2022-08-01 00:00:00"
                "2022-09-01 00:00:00" "5m" "SSPP-P-200/RUN.CV" "P200_ON"
                "average" point rest Q) as (table & E & L & C).
    exists table. repeat split; assumption.
Qed.

Lemma import_runs_extraction_witness :
  exists table,
    PI_Data_toplevel.df pacific_offset parse_decimal (server_of [pump])
    = ret (Some table)
    /\ columns table = ["P200_ON"].
Proof.
  destruct (proj2 (import_runs_extraction pacific_offset parse_decimal
                     (server_of [pump])) pump [] eq_refl)
    as (table & E & _ & C).
  exists table. split; [exact E|]. now apply C.
Defined.

(** ** What the coercion leaves to the scrub *)

Lemma to_numeric_numeric pn (c : cell) : numeric_or_missing (to_numeric pn c).
Proof.
  destruct c as [z|s|]; cbn [to_numeric numeric_or_missing]; try exact I.
  now destruct (pn s).
Qed.

Lemma replace_cell_numeric (d : list (string * cell)) (c : cell) :
  numeric_or_missing c -> replace_cell d c = c.
Proof.
  destruct c; cbn [numeric_or_missing]; intros N; [|contradiction|];
    now destruct d as [|[k v] d].
Qed.

Lemma summary_cell_numeric pn (c : cell) : numeric_or_missing (summary_cell pn c).
Proof.
  unfold summary_cell.
  rewrite replace_cell_numeric; apply to_numeric_numeric.
Qed.

Lemma sampled_cell_numeric pn (c : cell) : numeric_or_missing (sampled_cell pn c).
Proof.
  unfold sampled_cell.
  rewrite replace_cell_numeric; apply to_numeric_numeric.
Qed.

(** X9. In [PI_Data.py] the scrub of lines 158 and 200 never changes a cell:
    it follows the numeric coercion, which has already turned every string,
    the sentinel included, into a number or the missing-value marker.  On
    every frame and for every parser the post-processing of [PI_Call_Tag]
    gives the same outcome with its last statement removed. *)
Theorem scrub_after_coercion_is_identity uo pn (df : DataFrame) :
  replace [(sentinel, NaN)] (map_cells (to_numeric pn) df)
  = map_cells (to_numeric pn) df
  /\ forall query var_name dataType,
       run uo pn (PI_Data.PI_Call_Tag_post query var_name dataType) df
       = run uo pn (removelast (PI_Data.PI_Call_Tag_post query var_name
                                  dataType)) df.
Proof.
  assert (S : forall d, replace [(sentinel, NaN)] (map_cells (to_numeric pn) d)
                        = map_cells (to_numeric pn) d).
  { intros d. unfold replace. rewrite map_cells_map_cells.
    apply map_cells_ext. intros c.
    apply replace_cell_numeric, to_numeric_numeric. }
  split; [apply S|].
  intros query var_name dataType. unfold PI_Data.PI_Call_Tag_post.
  set (pre := if String.eqb dataType "sampled" then _ else _).
  change (pre ++ [op_apply_to_numeric; op_replace [(sentinel, NaN)]])
    with (pre ++ [op_apply_to_numeric] ++ [op_replace [(sentinel, NaN)]]).
  rewrite app_assoc, removelast_last, !run_app.
  destruct (run uo pn pre df) as [out [e|d]]; cbn [bind]; [reflexivity|].
  cbn [run exec bind ret app]. rewrite S. now rewrite !app_nil_r.
Qed.

(** ** The cells of the tables of [PI_Data.py] *)

Lemma iat_image (f : cell -> cell) (df : DataFrame) (i j : nat) (c : cell) :
  iat (map_cells f df) i j = Some c -> exists c0, c = f c0.
Proof.
  rewrite iat_map_cells. destruct (iat df i j) as [c0|]; cbn [option_map];
    intros H; [|discriminate H].
  exists c0. now inversion H.
Qed.

(** X10. Every table that [PI_Call] or [PI_Call_Tag] of [PI_Data.py]
    returns, in either mode, holds only numbers and missing-value markers:
    no string of the historian, state token, sentinel or free text, reaches
    the caller. *)
Theorem PI_Data_cells_numeric uo pn search start end_ interval csvFile query
  var_name dataType summaryType m table i j c :
  In m [PI_Data.PI_Call uo pn search start end_ interval csvFile dataType
          summaryType;
        PI_Data.PI_Call_Tag uo pn search start end_ interval query var_name
          dataType summaryType] ->
  m = ret (Some table) ->
  iat table i j = Some c ->
  numeric_or_missing c.
Proof.
  cbn [In]. intros [<-|[<-|[]]] R C.
  - rewrite PI_Call_files_agree in R.
    destruct (PI_Data_Extraction.PI_Call uo pn search start end_ interval
                csvFile dataType summaryType) as [out [e|[table'|]]];
      cbn [bind ret option_map] in R; try discriminate R.
    inversion R; subst. apply iat_image in C. destruct C as [c0 ->].
    apply summary_cell_numeric.
  - rewrite PI_Call_Tag_table in R.
    destruct (search query) as [|point rest]; [discriminate R|].
    destruct (String.eqb dataType "sampled").
    { inversion R; subst. apply iat_image in C. destruct C as [c0 ->].
      apply sampled_cell_numeric. }
    destruct (String.eqb dataType "summary"); [|discriminate R].
    destruct (summary_kind summaryType) as [kind|]; [|discriminate R].
    inversion R; subst. apply iat_image in C. destruct C as [c0 ->].
    apply summary_cell_numeric.
Qed.

Lemma PI_Data_cells_numeric_witness :
  power_meter.(summary) "1/1/2020  7:30:00" "2/1/2021  11:47:00" "60s" AVERAGE
  = [(1659337200, Num 40); (1659337500, Str sentinel); (1659337800, Num 41)]
  /\ numeric_or_missing NaN.
Proof.
  split; [reflexivity|].
  exact (PI_Data_cells_numeric pacific_offset parse_decimal
           (server_of [flow_meter; power_meter]) "1/1/2020  7:30:00"
           "2/1/2021  11:47:00" "60s"
           [("P1-FIC-11-024/PV.CV", "P1-Flow"); ("P1-KW-11-024/PV.CV", "P1-kW")]
           "P1-KW-11-024/PV.CV" "P1-kW" "summary" "average" _ _ 1%nat 1%nat NaN
           (or_introl eq_refl) eq_refl eq_refl).
Defined.

(** ** The trailing trim, exactly *)

Lemma index_map_cells (f : cell -> cell) (df : DataFrame) :
  index (map_cells f df) = index df.
Proof.
  unfold index, map_cells; cbn [rows]. rewrite map_map. now apply map_ext.
Qed.

Lemma index_drop (labels : list Z) (df : DataFrame) :
  index (drop labels df)
  = filter (fun t => negb (existsb (Z.eqb t) labels)) (index df).
Proof.
  unfold index, drop; cbn [rows].
  induction (rows df) as [|[t cs] l IH]; cbn [filter map fst]; [reflexivity|].
  destruct (negb (existsb (Z.eqb t) labels)); cbn [map fst]; now rewrite IH.
Qed.

(** X11. What the trim of line 198 keeps, for every series: under 'sampled'
    [PI_Call_Tag] of [PI_Data.py] returns, in their order, the samples whose
    wall-clock label differs from that of the last sample; the last label
    never occurs in the output, at most N-1 of N samples remain, and a series
    without samples gives an empty table, not an error. *)
Theorem sampled_index uo pn search start end_ interval query var_name
  summaryType point rest :
  search query = point :: rest ->
  exists table,
    PI_Data.PI_Call_Tag uo pn search start end_ interval query var_name
      "sampled" summaryType = ret (Some table)
    /\ (interpolated point start end_ interval = [] -> rows table = [])
    /\ forall front last,
         interpolated point start end_ interval = front ++ [last] ->
         index table
         = filter (fun w => negb (w =? wall_clock uo (Some zone) (fst last)))
             (map (fun s => wall_clock uo (Some zone) (fst s)) front)
         /\ ~ In (wall_clock uo (Some zone) (fst last)) (index table)
         /\ (nrows table <= List.length front)%nat.
Proof.
  intros Q. eexists. split; [|split].
  - exact (PI_Call_Tag_sampled_eq uo pn search start end_ interval query
             var_name summaryType point rest Q).
  - intros E. rewrite E. reflexivity.
  - intros front last E.
    set (W := fun t => wall_clock uo (Some zone) t).
    assert (I : index (map_cells (sampled_cell pn)
                         (drop_tail
                            (naive_series uo
                               (rename_label [(query, var_name)] (tag point))
                               (interpolated point start end_ interval))))
                = filter (fun w => negb (w =? W (fst last)))
                    (map (fun s => W (fst s)) front)).
    { rewrite index_map_cells. unfold drop_tail.
      rewrite (tail1_index_last _
                 (map (fun s => (W (fst s), [snd s])) front)
                 (W (fst last), [snd last]))
        by (unfold naive_series; cbn [rows]; now rewrite E, map_app).
      rewrite index_drop. unfold index, naive_series; cbn [rows fst].
      rewrite E, map_map, map_app, filter_app. cbn [map filter existsb fst].
      rewrite Z.eqb_refl. cbn [orb negb]. rewrite app_nil_r.
      apply filter_ext. intros w. now rewrite orb_false_r. }
    split; [exact I|]. split.
    + rewrite I. intros F. apply filter_In in F. destruct F as [_ F].
      fold (W (fst last)) in F. now rewrite Z.eqb_refl in F.
    + unfold nrows. rewrite <- (length_map fst). fold (index
        (map_cells (sampled_cell pn)
           (drop_tail
              (naive_series uo (rename_label [(query, var_name)] (tag point))
                 (interpolated point start end_ interval))))).
      rewrite I.
      etransitivity; [apply filter_length_le|]. now rewrite length_map.
Qed.

Lemma sampled_index_witness :
  exists table,
    PI_Data.PI_Call_Tag pacific_offset parse_decimal (server_of [pump_november])
      "2022-11-06 08:00:00Z" "2022-11-06 09:30:00Z" "30m" "SSPP-P-200/RUN.CV"
      "P200_ON" "sampled" "average" = ret (Some table)
    /\ ~ In 1667698200 (index table).
Proof.
  destruct (sampled_index pacific_offset parse_decimal
              (server_of [pump_november]) "2022-11-06 08:00:00Z"
              "2022-11-06 09:30:00Z" "30m" "SSPP-P-200/RUN.CV" "P200_ON"
              "average" pump_november [] eq_refl) as (table & E & _ & T).
  exists table. split; [exact E|].
  exact (proj1 (proj2 (T [(1667721600, Str "RUNNING");
                          (1667723400, Str "STOPPED");
                          (1667725200, Str "RUNNING")]
                         (1667727000, Str "STOPPED") eq_refl))).
Defined.

(** ** One csv row against the single-tag function *)

Lemma fold_insert_sorted (l : list Z) :
  StronglySorted Z.lt l -> fold_right insert [] l = l.
Proof.
  induction 1 as [|x l S IH F]; cbn [fold_right]; [reflexivity|].
  rewrite IH. destruct F as [|y l L F]; cbn [insert]; [reflexivity|].
  apply Z.ltb_lt in L. now rewrite L.
Qed.

Lemma join_one_series uo (name : string) (samples : list (Z * cell)) :
  StronglySorted Z.lt (map fst samples) ->
  map (fun t => (wall_clock uo (Some zone) t,
                 flat_map (fun d => row_at d t) [series name samples]))
      (union_index [series name samples])
  = rows (naive_series uo name samples).
Proof.
  intros S. unfold union_index. cbn [flat_map]. rewrite app_nil_r.
  unfold index at 1, series at 2; cbn [rows].
  assert (Ix : map fst (map (fun s : Z * cell => (fst s, [snd s])) samples)
               = map fst samples)
    by (rewrite map_map; now apply map_ext).
  rewrite Ix, (fold_insert_sorted _ S), map_map.
  unfold naive_series; cbn [rows]. apply map_ext_in. intros [t v] I.
  cbn [fst snd]. rewrite app_nil_r, row_at_series.
  now rewrite (value_at_present samples t v S I).
Qed.

(** X12. A csv file of one row does what the single-tag function does: when
    the search finds exactly one point and its summary is in chronological
    order, [PI_Call] on the row (query, var_name) and [PI_Call_Tag] on query
    and var_name return the same table in [PI-Data-Extraction.py], for every
    supported kind; in [PI_Data.py] they do so for the kind 'average', the
    only one whose column [PI_Call_Tag] renames. *)
Theorem one_row_is_single_tag uo pn search start end_ interval query var_name
  summaryType kind point :
  search query = [point] ->
  summary_kind summaryType = Some kind ->
  StronglySorted Z.lt (map fst (summary point start end_ interval kind)) ->
  PI_Data_Extraction.PI_Call uo pn search start end_ interval
    [(query, var_name)] "summary" summaryType
  = PI_Data_Extraction.PI_Call_Tag uo pn search start end_ interval query
      var_name "summary" summaryType
  /\ (kind = AVERAGE ->
      PI_Data.PI_Call uo pn search start end_ interval [(query, var_name)]
        "summary" summaryType
      = PI_Data.PI_Call_Tag uo pn search start end_ interval query var_name
          "summary" summaryType).
Proof.
  intros Q K S.
  assert (P : PI_Data.search_all search (map fst [(query, var_name)])
              = [point]).
  { unfold PI_Data.search_all. cbn [map fst flat_map]. now rewrite Q. }
  assert (E : PI_Data_Extraction.PI_Call uo pn search start end_ interval
                [(query, var_name)] "summary" summaryType
              = ret (Some (naive_series uo var_name
                             (summary point start end_ interval kind)))).
  { rewrite PI_Call_extraction_table, P.
    change (String.eqb "summary" "sampled") with false.
    change (String.eqb "summary" "summary") with true. cbv iota.
    rewrite K. cbn [List.length Nat.eqb map snd tagged_frames].
    unfold tagged_frames; cbn [map].
    now rewrite (join_one_series uo (tag point) _ S). }
  split.
  - rewrite E, PI_Call_Tag_extraction_table, Q.
    change (String.eqb "summary" "sampled") with false.
    change (String.eqb "summary" "summary") with true. cbv iota.
    now rewrite K.
  - intros ->. rewrite PI_Call_files_agree, E, bind_ret.
    rewrite PI_Call_Tag_table, Q.
    change (String.eqb "summary" "sampled") with false.
    change (String.eqb "summary" "summary") with true. cbv iota.
    rewrite K. cbn [option_map SummaryType_name].
    rewrite rename_label_one. reflexivity.
Qed.

Lemma one_row_is_single_tag_witness :
  PI_Data.PI_Call pacific_offset parse_decimal (server_of [flow_meter])
    "1/1/2019" "1/1/2020" "10m" [("P1-FIC-11-024/PV.CV", "P1-Flow")]
    "summary" "average"
  = PI_Data.PI_Call_Tag pacific_offset parse_decimal (server_of [flow_meter])
      "1/1/2019" "1/1/2020" "10m" "P1-FIC-11-024/PV.CV" "P1-Flow" "summary"
      "average".
Proof.
  refine (proj2 (one_row_is_single_tag pacific_offset parse_decimal
                   (server_of [flow_meter]) "1/1/2019" "1/1/2020" "10m"
                   "P1-FIC-11-024/PV.CV" "P1-Flow" "average" AVERAGE flow_meter
                   eq_refl eq_refl _) eq_refl).
  cbn. repeat constructor; lia.
Defined.

(** ** The shape of the tables *)

Lemma length_row_at_frames (start end_ interval : string) (kind : SummaryType)
  (points : list PIPoint) (t : Z) :
  List.length (flat_map (fun d => row_at d t)
                 (tagged_frames start end_ interval kind points))
  = List.length points.
Proof.
  rewrite (proj2 (row_at_frames start end_ interval kind points t)).
  apply length_map.
Qed.

Lemma ret_Some_inj {A : Type} (a b : A) :
  @ret (option A) (Some a) = ret (Some b) -> a = b.
Proof. intros H. now inversion H. Qed.

(** X13. The tables are rectangular and their index is naive.  Every table
    that [PI_Call] returns, in either file, has one column per csv row and
    one cell per column in every row; every table that [PI_Call_Tag] of
    [PI_Data.py] returns has exactly one column and one cell per row; and
    the index of all of them carries no time zone. *)
Theorem tables_rectangular uo pn search start end_ interval csvFile query
  var_name dataType summaryType table :
  (In (ret (Some table))
      [PI_Data.PI_Call uo pn search start end_ interval csvFile dataType
         summaryType;
       PI_Data_Extraction.PI_Call uo pn search start end_ interval csvFile
         dataType summaryType] ->
   List.length (columns table) = List.length csvFile
   /\ Forall (fun r => List.length (snd r) = List.length csvFile) (rows table)
   /\ tz table = None)
  /\ (ret (Some table)
      = PI_Data.PI_Call_Tag uo pn search start end_ interval query var_name
          dataType summaryType ->
      List.length (columns table) = 1%nat
      /\ Forall (fun r => List.length (snd r) = 1%nat) (rows table)
      /\ tz table = None).
Proof.
  split.
  - assert (X' : forall table,
                ret (Some table)
                = PI_Data_Extraction.PI_Call uo pn search start end_ interval
                    csvFile dataType summaryType ->
                List.length (columns table) = List.length csvFile
                /\ Forall (fun r => List.length (snd r) = List.length csvFile)
                     (rows table)
                /\ tz table = None).
    { clear table. intros table. rewrite PI_Call_extraction_table.
      destruct csvFile as [|row csv]; [intros H; discriminate H|].
      destruct (PI_Data.search_all search (map fst (row :: csv)))
        as [|point rest]; [intros H; discriminate H|].
      destruct (String.eqb dataType "sampled"); [intros H; discriminate H|].
      destruct (String.eqb dataType "summary"); [|intros H; discriminate H].
      destruct (summary_kind summaryType) as [kind|];
        [|intros H; discriminate H].
      destruct (Nat.eqb_spec (List.length (row :: csv)) (S (List.length rest)))
        as [L|L]; [|intros H; discriminate H].
      intros H. apply ret_Some_inj in H. subst table. cbn [columns rows tz].
      split; [apply length_map|]. split; [|reflexivity].
      apply Forall_forall. intros r I. apply in_map_iff in I.
      destruct I as (t & <- & _). cbn [snd].
      rewrite length_row_at_frames. cbn [List.length] in *. lia. }
    cbn [In]. intros [H|[H|[]]]; [|now apply X'].
    rewrite PI_Call_files_agree in H.
    destruct (PI_Data_Extraction.PI_Call uo pn search start end_ interval
                csvFile dataType summaryType) as [out [e|[table'|]]] eqn:EQ;
      cbn [bind ret option_map] in H; try discriminate H.
    assert (O : out = []).
    { unfold ret in H. injection H as A B. now rewrite app_nil_r in A. }
    subst out. apply ret_Some_inj in H. subst table.
    destruct (X' table' eq_refl) as (C & R & T).
    cbn [columns rows tz map_cells].
    split; [exact C|]. split; [|exact T].
    apply Forall_forall. intros r I. apply in_map_iff in I.
    destruct I as (r' & <- & I). cbn [snd]. rewrite length_map.
    rewrite Forall_forall in R. now apply R.
  - rewrite PI_Call_Tag_table.
    destruct (search query) as [|point rest]; [intros H; discriminate H|].
    destruct (String.eqb dataType "sampled").
    { intros H. apply ret_Some_inj in H. subst table.
      cbn [columns rows tz map_cells drop_tail drop naive_series].
      split; [reflexivity|]. split; [|reflexivity].
      apply Forall_forall. intros r I. apply in_map_iff in I.
      destruct I as (r' & <- & I). cbn [snd]. rewrite length_map.
      apply filter_In in I. destruct I as [I _]. apply in_map_iff in I.
      now destruct I as (s & <- & _). }
    destruct (String.eqb dataType "summary"); [|intros H; discriminate H].
    destruct (summary_kind summaryType) as [kind|];
      [|intros H; discriminate H].
    intros H. apply ret_Some_inj in H. subst table.
    cbn [columns rows tz map_cells naive_series].
    split; [reflexivity|]. split; [|reflexivity].
    apply Forall_forall. intros r I. apply in_map_iff in I.
    destruct I as (r' & <- & I). cbn [snd]. rewrite length_map.
    apply in_map_iff in I. now destruct I as (s & <- & _).
Qed.

Lemma tables_rectangular_witness :
  exists table,
    PI_Data.PI_Call pacific_offset parse_decimal
      (server_of [flow_meter; power_meter]) "1/1/2020  7:30:00"
      "2/1/2021  11:47:00" "60s"
      [("P1-FIC-11-024/PV.CV", "P1-Flow"); ("P1-KW-11-024/PV.CV", "P1-kW")]
      "summary" "average" = ret (Some table)
    /\ List.length (columns table) = 2%nat
    /\ Forall (fun r => List.length (snd r) = 2%nat) (rows table).
Proof.
  eexists. split; [reflexivity|].
  destruct (proj1 (tables_rectangular pacific_offset parse_decimal
                     (server_of [flow_meter; power_meter])
                     "1/1/2020  7:30:00" "2/1/2021  11:47:00" "60s"
                     [("P1-FIC-11-024/PV.CV", "P1-Flow");
                      ("P1-KW-11-024/PV.CV", "P1-kW")]
                     "P1-FIC-11-024/PV.CV" "P1-Flow" "summary" "average" _)
              (or_introl eq_refl)) as (C & R & _).
  split; [exact C|exact R].
Defined.

(** ** The 'sampled' branch of [PI-Data-Extraction.py] *)

(** X14. [PI_Call_Tag] of [PI-Data-Extraction.py] under 'sampled' hands back
    the historian's series as it came: the column is the point's tag, not
    the caller's variable name, the index keeps its time zone, no row is
    trimmed and every sample, string or number, is in its place.  The
    variable name, the zone offsets and the numeric parser play no part. *)
Theorem extraction_sampled_is_raw uo pn search start end_ interval query
  var_name summaryType point rest :
  search query = point :: rest ->
  exists table,
    (forall uo' pn' var_name' summaryType',
       PI_Data_Extraction.PI_Call_Tag uo' pn' search start end_ interval query
         var_name' "sampled" summaryType' = ret (Some table))
    /\ PI_Data_Extraction.PI_Call_Tag uo pn search start end_ interval query
         var_name "sampled" summaryType = ret (Some table)
    /\ columns table = [tag point]
    /\ tz table <> None
    /\ index table = map fst (interpolated point start end_ interval)
    /\ forall k s,
         nth_error (interpolated point start end_ interval) k = Some s ->
         iat table k 0 = Some (snd s).
Proof.
  intros Q. exists (interpolated_values point start end_ interval).
  split; [|split].
  - intros uo' pn' var_name' summaryType'.
    now rewrite PI_Call_Tag_extraction_table, Q.
  - now rewrite PI_Call_Tag_extraction_table, Q.
  - unfold interpolated_values, series, index, iat; cbn [columns tz rows].
    split; [reflexivity|]. split; [discriminate|]. split.
    + rewrite map_map. now apply map_ext.
    + intros k s N. now rewrite nth_error_map, N.
Qed.

Lemma extraction_sampled_is_raw_witness :
  exists table,
    PI_Data_Extraction.PI_Call_Tag pacific_offset parse_decimal
      (server_of [pump]) "2022-08-01 00:00:00" "2022-09-01 00:00:00" "5m"
      "SSPP-P-200/RUN.CV" "P200_ON" "sampled" "average" = ret (Some table)
    /\ columns table = ["SSPP-P-200/RUN.CV"]
    /\ iat table 0 0 = Some (Str "RUNNING").
Proof.
  destruct (extraction_sampled_is_raw pacific_offset parse_decimal
              (server_of [pump]) "2022-08-01 00:00:00" "2022-09-01 00:00:00"
              "5m" "SSPP-P-200/RUN.CV" "P200_ON" "average" pump [] eq_refl)
    as (table & _ & E & C & _ & _ & V).
  exists table. split; [exact E|]. split; [exact C|].
  exact (V 0%nat (1659337200, Str "RUNNING") eq_refl).
Defined.

(** ** The number of rows of the joined table *)

Lemma insert_length (t : Z) (l : list Z) :
  (List.length (insert t l) <= S (List.length l))%nat.
Proof.
  induction l as [|x l IH]; cbn [insert List.length]; [lia|].
  destruct (t <? x); cbn [List.length]; [lia|].
  destruct (t =? x); cbn [List.length]; lia.
Qed.

Lemma fold_insert_length (l : list Z) :
  (List.length (fold_right insert [] l) <= List.length l)%nat.
Proof.
  induction l as [|x l IH]; cbn [fold_right List.length]; [lia|].
  pose proof (insert_length x (fold_right insert [] l)). lia.
Qed.

Lemma sorted_NoDup (l : list Z) : StronglySorted Z.lt l -> NoDup l.
Proof.
  induction 1 as [|x l S IH F]; constructor; [|exact IH].
  intros I. rewrite Forall_forall in F. specialize (F x I). lia.
Qed.

Lemma length_index_frames (start end_ interval : string) (kind : SummaryType)
  (points : list PIPoint) :
  List.length (flat_map index (summary_frames start end_ interval kind points))
  = list_sum (map (fun p => List.length (summary p start end_ interval kind))
                  points).
Proof.
  unfold summary_frames.
  induction points as [|p ps IH]; cbn [map flat_map list_sum]; [reflexivity|].
  rewrite length_app, IH. f_equal.
  unfold index, rename, summaries, series; cbn [rows]. now rewrite !length_map.
Qed.

(** X15. The size of the table [PI_Call] joins under 'summary': when the
    search finds as many points as the csv has rows and the series are in
    chronological order, the table has at least as many rows as the longest
    series and at most as many as all series together. *)
Theorem joined_row_count uo pn search start end_ interval csvFile summaryType
  kind point rest :
  PI_Data.search_all search (map fst csvFile) = point :: rest ->
  summary_kind summaryType = Some kind ->
  List.length csvFile = S (List.length rest) ->
  (forall p, In p (point :: rest) ->
     StronglySorted Z.lt (map fst (summary p start end_ interval kind))) ->
  exists table,
    PI_Data.PI_Call uo pn search start end_ interval csvFile "summary"
      summaryType = ret (Some table)
    /\ (forall p, In p (point :: rest) ->
          (List.length (summary p start end_ interval kind) <= nrows table)%nat)
    /\ (nrows table
        <= list_sum (map (fun p =>
                            List.length (summary p start end_ interval kind))
                         (point :: rest)))%nat.
Proof.
  intros P K L C.
  rewrite (PI_Call_summary_eq uo pn search start end_ interval csvFile
             summaryType kind point rest P K).
  apply Nat.eqb_eq in L. rewrite L. eexists. split; [reflexivity|].
  unfold nrows; cbn [rows]. rewrite length_map.
  set (points := point :: rest) in *. split.
  - intros p I. rewrite <- (length_map fst).
    apply NoDup_incl_length; [apply sorted_NoDup, C, I|].
    intros t T. apply union_index_In.
    apply (proj1 (index_frames start end_ interval kind points t)).
    now exists p.
  - rewrite <- length_index_frames. apply fold_insert_length.
Qed.

Lemma joined_row_count_witness :
  exists table,
    PI_Data.PI_Call pacific_offset parse_decimal
      (server_of [flow_meter; power_meter]) "1/1/2020  7:30:00"
      "2/1/2021  11:47:00" "60s"
      [("P1-FIC-11-024/PV.CV", "P1-Flow"); ("P1-KW-11-024/PV.CV", "P1-kW")]
      "summary" "average" = ret (Some table)
    /\ (nrows table <= 5)%nat.
Proof.
  destruct (joined_row_count pacific_offset parse_decimal
              (server_of [flow_meter; power_meter]) "1/1/2020  7:30:00"
              "2/1/2021  11:47:00" "60s"
              [("P1-FIC-11-024/PV.CV", "P1-Flow");
               ("P1-KW-11-024/PV.CV", "P1-kW")]
              "average" AVERAGE flow_meter [power_meter] eq_refl eq_refl
              eq_refl)
    as (table & E & _ & U).
  - intros p [<-|[<-|[]]]; cbn; repeat constructor; lia.
  - exists table. split; [exact E|exact U].
Defined.

(** ** The caller's variable name under 'summary' *)

(** X16. [PI_Call_Tag] of [PI_Data.py] under 'summary' uses the caller's
    variable name for the kind 'average' only: for each of the six other
    kinds the column is the historian's label of the kind and the whole
    outcome is the same whatever variable name is passed. *)
Theorem summary_name_ignored uo pn search start end_ interval query var_name
  summaryType kind point rest :
  search query = point :: rest ->
  summary_kind summaryType = Some kind ->
  kind <> AVERAGE ->
  exists table,
    (forall var_name',
       PI_Data.PI_Call_Tag uo pn search start end_ interval query var_name'
         "summary" summaryType = ret (Some table))
    /\ PI_Data.PI_Call_Tag uo pn search start end_ interval query var_name
         "summary" summaryType = ret (Some table)
    /\ columns table = [SummaryType_name kind].
Proof.
  intros Q K N.
  assert (R : forall v, rename_label [("AVERAGE", v)] (SummaryType_name kind)
                        = SummaryType_name kind).
  { intros v. rewrite rename_label_one.
    destruct kind; try reflexivity. now contradiction N. }
  exists (map_cells (summary_cell pn)
            (naive_series uo (SummaryType_name kind)
               (summary point start end_ interval kind))).
  split; [|split; [|reflexivity]].
  - intros v.
    rewrite (PI_Call_Tag_summary_eq uo pn search start end_ interval query v
               summaryType kind point rest Q K).
    now rewrite R.
  - rewrite (PI_Call_Tag_summary_eq uo pn search start end_ interval query
               var_name summaryType kind point rest Q K).
    now rewrite R.
Qed.

Lemma summary_name_ignored_witness :
  exists table,
    PI_Data.PI_Call_Tag pacific_offset parse_decimal (server_of [power_meter])
      "1/1/2019" "1/1/2020" "10m" "P1-KW-11-024/PV.CV" "P1-kW-Max" "summary"
      "std_dev" = ret (Some table)
    /\ columns table = ["STD_DEV"].
Proof.
  destruct (summary_name_ignored pacific_offset parse_decimal
              (server_of [power_meter]) "1/1/2019" "1/1/2020" "10m"
              "P1-KW-11-024/PV.CV" "P1-kW-Max" "std_dev" STD_DEV power_meter []
              eq_refl eq_refl) as (table & _ & E & C).
  - discriminate.
  - exists table. split; [exact E|exact C].
Defined.

(** ** The row counts *)


Lemma summary_keeps_rows_witness :
  exists table,
    PI_Data.PI_Call_Tag pacific_offset parse_decimal (server_of [pump])
      "2022-08-01 00:00:00" "2022-09-01 00:00:00" "5m" "SSPP-P-200/RUN.CV"
      "P200_ON" "summary" "count" = ret (Some table)
    /\ nrows table = 4%nat.
Proof.
  destruct (summary_keeps_rows pacific_offset parse_decimal (server_of [pump])
              "2022-08-01 00:00:00" "2022-09-01 00:00:00" "5m"
              "SSPP-P-200/RUN.CV" "P200_ON" "count" COUNT pump [] eq_refl
              eq_refl) as (table & E & N).
  exists table. split; [exact E|exact N].
Defined.

(** ** What becomes of a sample *)

Lemma cell_fate pn (c : cell) :
  (forall z, c = Num z -> sampled_cell pn c = Num z /\ summary_cell pn c = Num z)
  /\ (c = NaN -> sampled_cell pn c = NaN /\ summary_cell pn c = NaN)
  /\ (forall s, c = Str s ->
        summary_cell pn c
        = match pn s with Some z => Num z | None => NaN end
        /\ (s <> "RUNNING" -> s <> "STOPPED" -> s <> "FAIL" ->
            sampled_cell pn c
            = match pn s with Some z => Num z | None => NaN end)).
Proof.
  split; [|split].
  - intros z ->. split; reflexivity.
  - intros ->. split; reflexivity.
  - intros s ->. unfold summary_cell, sampled_cell. split.
    + rewrite replace_cell_numeric by apply to_numeric_numeric.
      reflexivity.
    + intros A B C. rewrite replace_states_other by assumption.
      rewrite replace_cell_numeric by apply to_numeric_numeric.
      reflexivity.
Qed.

(** X19. The fate of each sample in the tables of [PI_Call_Tag] of
    [PI_Data.py]: a number comes out unchanged in both modes; under
    'sampled' a string other than the three state tokens, and under 'summary'
    every string, comes out as the number the parser reads in it, or as the
    missing-value marker when the parser rejects it: free text is lost, not
    reported. *)
Theorem sample_fate uo pn search start end_ interval query var_name summaryType
  kind point rest :
  search query = point :: rest ->
  summary_kind summaryType = Some kind ->
  (exists table,
     PI_Data.PI_Call_Tag uo pn search start end_ interval query var_name
       "sampled" summaryType = ret (Some table)
     /\ forall i j c,
          iat (drop_tail
                 (naive_series uo
                    (rename_label [(query, var_name)] (tag point))
                    (interpolated point start end_ interval))) i j = Some c ->
          (forall z, c = Num z -> iat table i j = Some (Num z))
          /\ (forall s, c = Str s ->
                s <> "RUNNING" -> s <> "STOPPED" -> s <> "FAIL" ->
                iat table i j
                = Some (match pn s with Some z => Num z | None => NaN end)))
  /\ (exists table,
        PI_Data.PI_Call_Tag uo pn search start end_ interval query var_name
          "summary" summaryType = ret (Some table)
        /\ forall i j c,
             iat (naive_series uo
                    (rename_label [("AVERAGE", var_name)]
                       (SummaryType_name kind))
                    (summary point start end_ interval kind)) i j = Some c ->
             (forall z, c = Num z -> iat table i j = Some (Num z))
             /\ (forall s, c = Str s ->
                   iat table i j
                   = Some (match pn s with Some z => Num z | None => NaN end))).
Proof.
  intros Q K. split; eexists; (split;
    [first [exact (PI_Call_Tag_sampled_eq uo pn search start end_ interval
                     query var_name summaryType point rest Q)
           |exact (PI_Call_Tag_summary_eq uo pn search start end_ interval
                     query var_name summaryType kind point rest Q K)]|]);
    intros i j c H; rewrite iat_map_cells, H; cbn [option_map];
    destruct (cell_fate pn c) as (FN & _ & FS); split.
  - intros z E. f_equal. now apply FN.
  - intros s E A B C. f_equal. now apply (proj2 (FS s E)).
  - intros z E. f_equal. now apply FN.
  - intros s E. f_equal. now apply (proj1 (FS s E)).
Qed.

Lemma sample_fate_witness :
  exists table,
    PI_Data.PI_Call_Tag pacific_offset parse_decimal (server_of [power_meter])
      "1/1/2019" "1/1/2020" "10m" "P1-KW-11-024/PV.CV" "P1-kW" "summary"
      "average" = ret (Some table)
    /\ iat table 0 0 = Some (Num 40)
    /\ iat table 1 0 = Some NaN.
Proof.
  destruct (sample_fate pacific_offset parse_decimal (server_of [power_meter])
              "1/1/2019" "1/1/2020" "10m" "P1-KW-11-024/PV.CV" "P1-kW"
              "average" AVERAGE power_meter [] eq_refl eq_refl)
    as (_ & table & E & F).
  exists table. split; [exact E|]. split.
  - exact (proj1 (F 0%nat 0%nat (Num 40) eq_refl) 40 eq_refl).
  - exact (proj2 (F 1%nat 0%nat (Str sentinel) eq_refl) sentinel eq_refl).
Defined.

(** ** The single-tag functions read one point *)

(** C9. [PI_Call_Tag], in both files, builds its output from the series of
    the first point of the search and from nothing else the search returns.
    Under 'sampled' the table of [PI_Data.py] is the interpolated series of
    that point, relabelled, trimmed and coerced, and that of
    [PI-Data-Extraction.py] is that series itself; under 'summary' the table
    is the summary of that point, relabelled (and coerced in [PI_Data.py]).
    The other points appear nowhere in the outcome: the printed lines and
    the result are those of a search that returns the first point only. *)
Theorem PI_Call_Tag_first_point uo pn search start end_ interval query
  var_name dataType summaryType point rest :
  search query = point :: rest ->
  PI_Data.PI_Call_Tag uo pn search start end_ interval query var_name
    dataType summaryType
  = (if String.eqb dataType "sampled"
     then ret (Some
            (map_cells (sampled_cell pn)
               (drop_tail
                  (naive_series uo
                     (rename_label [(query, var_name)] (tag point))
                     (interpolated point start end_ interval)))))
     else if String.eqb dataType "summary"
     then match summary_kind summaryType with
          | Some kind =>
              ret (Some
                (map_cells (summary_cell pn)
                   (naive_series uo
                      (rename_label [("AVERAGE", var_name)]
                         (SummaryType_name kind))
                      (summary point start end_ interval kind))))
          | None => (["ERROR: Summary type not valid."], inr None)
          end
     else (["ERROR: Data type not valid."], inr None))
  /\ PI_Data_Extraction.PI_Call_Tag uo pn search start end_ interval query
       var_name dataType summaryType
     = (if String.eqb dataType "sampled"
        then ret (Some (interpolated_values point start end_ interval))
        else if String.eqb dataType "summary"
        then match summary_kind summaryType with
             | Some kind =>
                 ret (Some (naive_series uo var_name
                              (summary point start end_ interval kind)))
             | None => (["ERROR: Summary type not valid."], inr None)
             end
        else (["ERROR: Data type not valid."], inr None))
  /\ (dataType = "sampled" ->
      exists table,
        PI_Data.PI_Call_Tag uo pn search start end_ interval query var_name
          dataType summaryType = ret (Some table)
        /\ forall i j c,
             iat table i j = Some c ->
             exists s, In s (interpolated point start end_ interval)
                       /\ c = sampled_cell pn (snd s))
  /\ (forall kind,
        dataType = "summary" -> summary_kind summaryType = Some kind ->
        exists table,
          PI_Data.PI_Call_Tag uo pn search start end_ interval query var_name
            dataType summaryType = ret (Some table)
          /\ nrows table = List.length (summary point start end_ interval kind)
          /\ forall k s,
               nth_error (summary point start end_ interval kind) k = Some s ->
               iat table k 0 = Some (summary_cell pn (snd s)))
  /\ PI_Data.PI_Call_Tag uo pn search start end_ interval query var_name
       dataType summaryType
     = PI_Data.PI_Call_Tag uo pn (fun _ => [point]) start end_ interval query
         var_name dataType summaryType
  /\ PI_Data_Extraction.PI_Call_Tag uo pn search start end_ interval query
       var_name dataType summaryType
     = PI_Data_Extraction.PI_Call_Tag uo pn (fun _ => [point]) start end_
         interval query var_name dataType summaryType.
Proof.
  intros Q.
  assert (T : PI_Data.PI_Call_Tag uo pn search start end_ interval query
                var_name dataType summaryType
              = (if String.eqb dataType "sampled"
                 then ret (Some
                        (map_cells (sampled_cell pn)
                           (drop_tail
                              (naive_series uo
                                 (rename_label [(query, var_name)] (tag point))
                                 (interpolated point start end_ interval)))))
                 else if String.eqb dataType "summary"
                 then match summary_kind summaryType with
                      | Some kind =>
                          ret (Some
                            (map_cells (summary_cell pn)
                               (naive_series uo
                                  (rename_label [("AVERAGE", var_name)]
                                     (SummaryType_name kind))
                                  (summary point start end_ interval kind))))
                      | None => (["ERROR: Summary type not valid."], inr None)
                      end
                 else (["ERROR: Data type not valid."], inr None)))
    by now rewrite PI_Call_Tag_table, Q.
  split; [exact T|].
  split; [now rewrite PI_Call_Tag_extraction_table, Q|].
  split; [|split; [|split]].
  - intros ->. rewrite T. change (String.eqb "sampled" "sampled") with true.
    cbv iota. eexists. split; [reflexivity|].
    intros i j c H. rewrite iat_map_cells in H.
    destruct (iat _ i j) as [c0|] eqn:C; cbn [option_map] in H;
      [|discriminate H].
    injection H as <-. unfold iat in C.
    destruct (nth_error _ i) as [r|] eqn:N; [|discriminate C].
    apply nth_error_In in N.
    unfold drop_tail, drop in N; cbn [rows] in N.
    apply filter_In in N. destruct N as [N _].
    unfold naive_series in N; cbn [rows] in N. apply in_map_iff in N.
    destruct N as (s & <- & I). exists s. split; [exact I|].
    cbn [snd] in C. destruct j as [|[|j]]; cbn in C; now inversion C.
  - intros kind -> K. rewrite T.
    change (String.eqb "summary" "sampled") with false.
    change (String.eqb "summary" "summary") with true. cbv iota. rewrite K.
    eexists. split; [reflexivity|]. split.
    + rewrite nrows_map_cells. unfold nrows, naive_series; cbn [rows].
      apply length_map.
    + intros k s N. rewrite iat_map_cells. unfold iat, naive_series.
      cbn [rows]. now rewrite nth_error_map, N.
  - unfold PI_Data.PI_Call_Tag. now rewrite Q.
  - unfold PI_Data_Extraction.PI_Call_Tag. now rewrite Q.
Qed.

Lemma PI_Call_Tag_first_point_witness :
  server_of [pump; pump_november] "SSPP*" = [pump; pump_november]
  /\ PI_Data.PI_Call_Tag pacific_offset parse_decimal
       (server_of [pump; pump_november]) "2022-08-01 00:00:00"
       "2022-09-01 00:00:00" "5m" "SSPP*" "P200_ON" "sampled" "average"
     = ret (Some {| columns := ["SSPP-P-200/RUN.CV"];
                    rows := [(1659312000, [Num 1]); (1659312300, [Num 0]);
                             (1659312600, [Num 0])];
                    tz := None |}).
Proof.
  split; [reflexivity|].
  exact (proj1 (PI_Call_Tag_first_point pacific_offset parse_decimal
                  (server_of [pump; pump_november]) "2022-08-01 00:00:00"
                  "2022-09-01 00:00:00" "5m" "SSPP*" "P200_ON" "sampled"
                  "average" pump [pump_november] eq_refl)).
Defined.
